(** * Webscaper: a shallow embedding of [webscaper.py]

    The crawler of [webscaper.py] ([WebScraper.scrape_website] and the
    methods it calls) is embedded as state-passing functions over an
    explicit crawler state (the visited set, the files written, and a
    chronological list of the effects performed).  The network, the file
    system and the HTML parser are an oracle ([World]); the pure string
    functions of the Python standard library that the crawler calls
    ([urllib.parse.urlparse], [urllib.parse.urljoin], [os.path.splitext],
    [os.path.join], [os.path.dirname], [str.replace]) are embedded from
    the CPython 3.11 sources. *)

From Stdlib Require Import ZArith String Ascii List Bool Lia.
From stdpp Require Import base decidable option gmap strings list.
Import ListNotations.

Local Open Scope string_scope.
Local Open Scope list_scope.
Local Open Scope Z_scope.

(** ** Python strings

    A Python [str] is modelled as a Rocq [string]; URLs are ASCII text.
    Indices are [Z], with [-1] for "not found", as [str.find] has them. *)
Module PyStr.

Definition ch_eqb (a b : ascii) : bool := Ascii.eqb a b.

Fixpoint contains (c : ascii) (s : string) : bool :=
  match s with
  | EmptyString => false
  | String a r => ch_eqb a c || contains c r
  end.

(** [s.partition(c)]: the text before and after the first [c]. *)
Fixpoint partition (c : ascii) (s : string) : option (string * string) :=
  match s with
  | EmptyString => None
  | String a r =>
      if ch_eqb a c then Some (EmptyString, r)
      else match partition c r with
           | Some (b, t) => Some (String a b, t)
           | None => None
           end
  end.

(** [s.rpartition(c)]: the text before and after the last [c]. *)
Fixpoint rpartition (c : ascii) (s : string) : option (string * string) :=
  match s with
  | EmptyString => None
  | String a r =>
      match rpartition c r with
      | Some (b, t) => Some (String a b, t)
      | None => if ch_eqb a c then Some (EmptyString, r) else None
      end
  end.

Fixpoint rfind_from (c : ascii) (s : string) (i last : Z) : Z :=
  match s with
  | EmptyString => last
  | String a r => rfind_from c r (i + 1) (if ch_eqb a c then i else last)
  end.

(** [s.rfind(c)] *)
Definition rfind (c : ascii) (s : string) : Z := rfind_from c s 0 (-1).

Fixpoint take (n : nat) (s : string) : string :=
  match n, s with
  | S n', String a r => String a (take n' r)
  | _, _ => EmptyString
  end.

Fixpoint drop (n : nat) (s : string) : string :=
  match n, s with
  | S n', String _ r => drop n' r
  | _, _ => s
  end.

(** [s[i:j]] for [0 <= i]. *)
Definition slice (i j : Z) (s : string) : string :=
  take (Z.to_nat (j - i)) (drop (Z.to_nat i) s).

Definition startswith (p s : string) : bool := String.prefix p s.

Fixpoint endswith_ch (c : ascii) (s : string) : bool :=
  match s with
  | EmptyString => false
  | String a EmptyString => ch_eqb a c
  | String _ r => endswith_ch c r
  end.

(** [s.replace(old, new)] for one-character [old] and [new]. *)
Fixpoint replace_ch (old new : ascii) (s : string) : string :=
  match s with
  | EmptyString => EmptyString
  | String a r => String (if ch_eqb a old then new else a) (replace_ch old new r)
  end.

(** [s.replace(c, empty)]: every [c] removed. *)
Fixpoint remove_ch (c : ascii) (s : string) : string :=
  match s with
  | EmptyString => EmptyString
  | String a r => if ch_eqb a c then remove_ch c r else String a (remove_ch c r)
  end.

Fixpoint all_ch (p : ascii -> bool) (s : string) : bool :=
  match s with
  | EmptyString => true
  | String a r => p a && all_ch p r
  end.

Fixpoint lstrip (p : ascii -> bool) (s : string) : string :=
  match s with
  | EmptyString => EmptyString
  | String a r => if p a then lstrip p r else s
  end.

Fixpoint rev_onto (s acc : string) : string :=
  match s with
  | EmptyString => acc
  | String a r => rev_onto r (String a acc)
  end.

Definition rstrip (p : ascii -> bool) (s : string) : string :=
  rev_onto (lstrip p (rev_onto s EmptyString)) EmptyString.

Definition strip (p : ascii -> bool) (s : string) : string :=
  rstrip p (lstrip p s).

(** The text up to the first character satisfying [p], and the rest
    (which starts with that character). *)
Fixpoint break_at (p : ascii -> bool) (s : string) : string * string :=
  match s with
  | EmptyString => (EmptyString, EmptyString)
  | String a r =>
      if p a then (EmptyString, s)
      else let '(b, t) := break_at p r in (String a b, t)
  end.

(** [s.split(c)] *)
Fixpoint split (c : ascii) (s : string) : list string :=
  match s with
  | EmptyString => [EmptyString]
  | String a r =>
      if ch_eqb a c then EmptyString :: split c r
      else match split c r with
           | h :: t => String a h :: t
           | [] => [String a EmptyString]
           end
  end.

(** [sep.join(l)] *)
Fixpoint join (sep : string) (l : list string) : string :=
  match l with
  | [] => EmptyString
  | [x] => x
  | x :: r => x +:+ sep +:+ join sep r
  end.

Definition is_empty (s : string) : bool :=
  match s with EmptyString => true | _ => false end.

Definition code (a : ascii) : N := N_of_ascii a.

Definition is_ascii (a : ascii) : bool := (code a <? 128)%N.

Definition is_upper (a : ascii) : bool := ((65 <=? code a) && (code a <=? 90))%N.
Definition is_lower (a : ascii) : bool := ((97 <=? code a) && (code a <=? 122))%N.
Definition is_digit (a : ascii) : bool := ((48 <=? code a) && (code a <=? 57))%N.
Definition is_alpha (a : ascii) : bool := is_upper a || is_lower a.

Definition lower_ch (a : ascii) : ascii :=
  if is_upper a then ascii_of_N (code a + 32) else a.

Fixpoint lower (s : string) : string :=
  match s with
  | EmptyString => EmptyString
  | String a r => String (lower_ch a) (lower r)
  end.

Definition mem (s : string) (l : list string) : bool :=
  existsb (String.eqb s) l.

End PyStr.

(** ** Exceptions and results

    Every exception below derives from Python's [Exception]; an
    [except Exception] clause catches all of them, and
    [except requests.RequestException] only the [RequestException] ones.
    [KeyboardInterrupt] is not an [Exception] and is outside the model. *)

(** The [requests.RequestException]s that [requests.Session.get]
    itself raises. *)
Inductive transport_error : Type :=
| ConnectionError
| Timeout
| InvalidURL
| TooManyRedirects.

(** [requests.RequestException] and its subclasses; [HTTPError] is what
    [Response.raise_for_status] raises. *)
Inductive request_exception : Type :=
| HTTPError (status_code : Z)
| TransportError (e : transport_error).

Inductive exn : Type :=
| ValueError (msg : string)
| OSError (msg : string)
| RequestException (e : request_exception)
| OtherException (name : string).

Definition is_RequestException (e : exn) : bool :=
  match e with RequestException _ => true | _ => false end.

Inductive res (A : Type) : Type :=
| Ok (a : A)
| Exc (e : exn).
Arguments Ok {A} a.
Arguments Exc {A} e.

Definition res_bind {A B} (r : res A) (k : A -> res B) : res B :=
  match r with Ok a => k a | Exc e => Exc e end.

(** ** [urllib.parse] (CPython 3.11) *)
Module Urllib.
Import PyStr.

Definition uses_relative : list string :=
  [EmptyString; "ftp"; "http"; "gopher"; "nntp"; "imap"; "wais"; "file"; "https";
   "shttp"; "mms"; "prospero"; "rtsp"; "rtspu"; "sftp"; "svn"; "svn+ssh";
   "ws"; "wss"].

Definition uses_netloc : list string :=
  [EmptyString; "ftp"; "http"; "gopher"; "nntp"; "telnet"; "imap"; "wais"; "file";
   "mms"; "https"; "shttp"; "snews"; "prospero"; "rtsp"; "rtspu"; "rsync";
   "svn"; "svn+ssh"; "sftp"; "nfs"; "git"; "git+ssh"; "ws"; "wss"].

Definition uses_params : list string :=
  [EmptyString; "ftp"; "hdl"; "prospero"; "http"; "imap"; "https"; "shttp"; "rtsp";
   "rtspu"; "sip"; "sips"; "mms"; "sftp"; "tel"].

(** [c in scheme_chars] *)
Definition scheme_char (a : ascii) : bool :=
  is_lower a || is_upper a || is_digit a
  || ch_eqb a "+" || ch_eqb a "-" || ch_eqb a ".".

(** [c in _WHATWG_C0_CONTROL_OR_SPACE] *)
Definition c0_control_or_space (a : ascii) : bool := (code a <=? 32)%N.

Definition TAB : ascii := ascii_of_N 9.
Definition CR : ascii := ascii_of_N 13.
Definition LF : ascii := ascii_of_N 10.

(** [_UNSAFE_URL_BYTES_TO_REMOVE]: tab, CR and LF are removed. *)
Definition remove_unsafe (s : string) : string :=
  remove_ch LF (remove_ch CR (remove_ch TAB s)).

(** The two checks of [urlsplit] that consult other modules
    ([ipaddress.ip_address] and the IPvFuture pattern in
    [_check_bracketed_host]; [unicodedata.normalize] in [_checknetloc])
    are answered by an oracle: [true] when the check passes, [false]
    when it raises [ValueError]. *)
Record HostChecks : Type := {
  bracketed_host_ok : string -> bool;
  nfkc_ok : string -> bool
}.

Record SplitResult : Type := {
  sp_scheme : string;
  sp_netloc : string;
  sp_path : string;
  sp_query : string;
  sp_fragment : string
}.

Record ParseResult : Type := {
  scheme : string;
  netloc : string;
  path : string;
  params : string;
  query : string;
  fragment : string
}.

(** [_splitnetloc(url, 2)] on a [url] that starts with ["//"], given
    the text after those two characters. *)
Definition _splitnetloc (after : string) : string * string :=
  break_at (fun a => ch_eqb a "/" || ch_eqb a "?" || ch_eqb a "#") after.

Definition _check_bracketed_netloc (hc : HostChecks) (nl : string) : res unit :=
  let hostname_and_port :=
    match rpartition "@" nl with Some (_, t) => t | None => nl end in
  match partition "[" hostname_and_port with
  | Some (before_bracket, bracketed) =>
      if negb (is_empty before_bracket) then Exc (ValueError "Invalid IPv6 URL")
      else
        let '(hostname, port) :=
          match partition "]" bracketed with
          | Some (h, p) => (h, p)
          | None => (bracketed, EmptyString)
          end in
        if negb (is_empty port) && negb (startswith ":" port)
        then Exc (ValueError "Invalid IPv6 URL")
        else if bracketed_host_ok hc hostname then Ok tt
             else Exc (ValueError "invalid bracketed host")
  | None =>
      let hostname :=
        match partition ":" hostname_and_port with
        | Some (h, _) => h
        | None => hostname_and_port
        end in
      if bracketed_host_ok hc hostname then Ok tt
      else Exc (ValueError "invalid bracketed host")
  end.

Definition _checknetloc (hc : HostChecks) (nl : string) : res unit :=
  if is_empty nl || all_ch is_ascii nl then Ok tt
  else if nfkc_ok hc nl then Ok tt
       else Exc (ValueError "netloc contains invalid characters under NFKC normalization").

(** The scheme prefix of [urlsplit]: [Some (scheme, rest)] when the
    text before the first [":"] is a scheme. *)
Definition split_scheme (url : string) : option (string * string) :=
  match partition ":" url with
  | Some (String a0 r0 as pre, rest) =>
      if is_ascii a0 && is_alpha a0 && all_ch scheme_char pre
      then Some (lower pre, rest)
      else None
  | _ => None
  end.

Definition urlsplit (hc : HostChecks) (url scheme0 : string) : res SplitResult :=
  let url := lstrip c0_control_or_space url in
  let scheme0 := strip c0_control_or_space scheme0 in
  let url := remove_unsafe url in
  let scheme0 := remove_unsafe scheme0 in
  let '(scheme1, url) :=
    match split_scheme url with
    | Some (s, rest) => (s, rest)
    | None => (scheme0, url)
    end in
  res_bind
    (if startswith "//" url then
       let '(nl, rest) := _splitnetloc (drop 2 url) in
       if (contains "[" nl && negb (contains "]" nl))
          || (contains "]" nl && negb (contains "[" nl))
       then Exc (ValueError "Invalid IPv6 URL")
       else if contains "[" nl && contains "]" nl
            then res_bind (_check_bracketed_netloc hc nl) (fun _ => Ok (nl, rest))
            else Ok (nl, rest)
     else Ok (EmptyString, url))
    (fun '(nl, url) =>
       let '(url, frag) :=
         match partition "#" url with
         | Some (u, f) => (u, f)
         | None => (url, EmptyString)
         end in
       let '(url, qry) :=
         match partition "?" url with
         | Some (u, q) => (u, q)
         | None => (url, EmptyString)
         end in
       res_bind (_checknetloc hc nl) (fun _ =>
         Ok {| sp_scheme := scheme1; sp_netloc := nl; sp_path := url;
               sp_query := qry; sp_fragment := frag |})).

Definition _splitparams (url : string) : string * string :=
  if contains "/" url then
    let k := rfind "/" url in
    match partition ";" (drop (Z.to_nat k) url) with
    | Some (b, t) => (take (Z.to_nat k) url +:+ b, t)
    | None => (url, EmptyString)
    end
  else
    match partition ";" url with
    | Some (b, t) => (b, t)
    | None => (take (Nat.pred (String.length url)) url, url)
    end.

Definition urlparse_with (hc : HostChecks) (url scheme0 : string) : res ParseResult :=
  res_bind (urlsplit hc url scheme0) (fun sr =>
    let '(url, prm) :=
      if mem (sp_scheme sr) uses_params && contains ";" (sp_path sr)
      then _splitparams (sp_path sr)
      else (sp_path sr, EmptyString) in
    Ok {| scheme := sp_scheme sr; netloc := sp_netloc sr; path := url;
          params := prm; query := sp_query sr; fragment := sp_fragment sr |}).

(** [urlparse(url)] *)
Definition urlparse (hc : HostChecks) (url : string) : res ParseResult :=
  urlparse_with hc url EmptyString.

Definition urlunsplit (sch nl url qry frag : string) : string :=
  let url :=
    if negb (is_empty nl)
       || (negb (is_empty sch) && mem sch uses_netloc && negb (startswith "//" url))
    then
      let url := if negb (is_empty url) && negb (startswith "/" url)
                 then "/" +:+ url else url in
      "//" +:+ nl +:+ url
    else url in
  let url := if negb (is_empty sch) then sch +:+ ":" +:+ url else url in
  let url := if negb (is_empty qry) then url +:+ "?" +:+ qry else url in
  if negb (is_empty frag) then url +:+ "#" +:+ frag else url.

Definition urlunparse (sch nl url prm qry frag : string) : string :=
  let url := if negb (is_empty prm) then url +:+ ";" +:+ prm else url in
  urlunsplit sch nl url qry frag.

(** [segments[1:-1] = filter(None, segments[1:-1])] *)
Definition filter_inner (segments : list string) : list string :=
  match segments with
  | [] => []
  | h :: t =>
      match t with
      | [] => [h]
      | _ => h :: List.filter (fun s => negb (is_empty s)) (removelast t)
               ++ [List.last t EmptyString]
      end
  end.

(** The loop over [segments] of [urljoin]; [resolved_path] is kept in
    reverse. *)
Fixpoint resolve_segments (segments rev_resolved : list string) : list string :=
  match segments with
  | [] => rev_resolved
  | seg :: rest =>
      if String.eqb seg ".." then resolve_segments rest (List.tl rev_resolved)
      else if String.eqb seg "." then resolve_segments rest rev_resolved
      else resolve_segments rest (seg :: rev_resolved)
  end.

Definition urljoin (hc : HostChecks) (base url : string) : res string :=
  if is_empty base then Ok url
  else if is_empty url then Ok base
  else
    res_bind (urlparse_with hc base EmptyString) (fun b =>
    res_bind (urlparse_with hc url (scheme b)) (fun u =>
      if negb (String.eqb (scheme u) (scheme b)) || negb (mem (scheme u) uses_relative)
      then Ok url
      else if mem (scheme u) uses_netloc && negb (is_empty (netloc u))
      then Ok (urlunparse (scheme u) (netloc u) (path u) (params u) (query u) (fragment u))
      else
        let nl := if mem (scheme u) uses_netloc then netloc b else netloc u in
        if is_empty (path u) && is_empty (params u)
        then
          let qry := if is_empty (query u) then query b else query u in
          Ok (urlunparse (scheme u) nl (path b) (params b) qry (fragment u))
        else
          let base_parts := split "/" (path b) in
          let base_parts :=
            if negb (is_empty (List.last base_parts EmptyString))
            then removelast base_parts else base_parts in
          let segments :=
            if startswith "/" (path u) then split "/" (path u)
            else filter_inner (base_parts ++ split "/" (path u)) in
          let resolved_path := List.rev (resolve_segments segments []) in
          let resolved_path :=
            if mem (List.last segments EmptyString) ["."; ".."]
            then resolved_path ++ [EmptyString] else resolved_path in
          let joined := join "/" resolved_path in
          Ok (urlunparse (scheme u) nl
                (if is_empty joined then "/" else joined)
                (params u) (query u) (fragment u)))).

End Urllib.

(** ** [os.path] (posixpath) *)
Module OsPath.
Import PyStr.

(** [os.path.splitext(p)[1]]: the extension is everything from the
    last dot of the last component, unless that component has only
    dots before it. *)
Definition splitext_ext (p : string) : string :=
  let sepIndex := rfind "/" p in
  let dotIndex := rfind "." p in
  if dotIndex >? sepIndex then
    if all_ch (fun a => ch_eqb a ".") (slice (sepIndex + 1) dotIndex p)
    then EmptyString
    else drop (Z.to_nat dotIndex) p
  else EmptyString.

(** [os.path.join(a, b)] *)
Definition join (a b : string) : string :=
  if startswith "/" b then b
  else if is_empty a || endswith_ch "/" a then a +:+ b
  else a +:+ "/" +:+ b.

(** [os.path.dirname(p)] *)
Definition dirname (p : string) : string :=
  let i := rfind "/" p + 1 in
  let head := slice 0 i p in
  if negb (is_empty head) && negb (all_ch (fun a => ch_eqb a "/") head)
  then rstrip (fun a => ch_eqb a "/") head
  else head.

End OsPath.

(** ** Effects, the environment and the crawler state *)

Inductive log_level : Type := INFO | WARNING | ERROR.

(** One constructor per [logging] call of the source. *)
Inductive log_msg : Type :=
| MsgRobotsError (url : string) (e : exn)
| MsgDisallowed (url : string)
| MsgDownloadFailed (url : string) (e : exn)
| MsgSaved (url filename : string)
| MsgSaveFailed (url : string) (e : exn)
| MsgScraping (depth : Z) (url : string)
| MsgParseError (url : string) (e : exn).

Definition level_of (m : log_msg) : log_level :=
  match m with
  | MsgRobotsError _ _ | MsgDisallowed _ => WARNING
  | MsgDownloadFailed _ _ | MsgSaveFailed _ _ | MsgParseError _ _ => ERROR
  | MsgSaved _ _ | MsgScraping _ _ => INFO
  end.

(** The effects the crawler performs, recorded when they are attempted. *)
Inductive event : Type :=
| Log (m : log_msg)
| RobotsRead (robots_url : string)
| Sleep (seconds : Z)
| Get (url : string)
| MakeDirs (dir : string)
| WriteFile (filename content : string).

(** What [session.get] does: it returns a response, raises a
    [requests.RequestException], or lets through an exception of
    another class (such as urllib3's [LocationParseError] for a host
    like [a..test]), given by the name of its class. *)
Inductive http_reply : Type :=
| Response (status_code : Z) (text : string)
| RequestFailed (e : transport_error)
| Leaked (name : string).

(** What [open(filename, "w")] and [f.write(content)] do: the write
    succeeds; or [open] raises and the file system is as it was; or
    [f.write] (or closing the file) raises after [open] has created or
    emptied the file, which then holds [remains]. *)
Inductive write_result : Type :=
| Written
| OpenFailed (e : exn)
| WriteFailed (e : exn) (remains : string).

(** The environment.  Each oracle that stands for the network or the
    file system is given the effects performed so far, so its answers
    may change during a run.
    - [rp_read]: [RobotFileParser.read()] on a robots.txt URL; the rule
      set is returned as its [can_fetch(useragent, url)] function;
    - [session_get]: [requests.Session.get(url, timeout=10)];
    - [soup_links]: [BeautifulSoup(html, "html.parser")] followed by
      [find_all("a", href=True)], as the list of [href] values in
      document order;
    - [os_makedirs], [write_file]: [os.makedirs(dir, exist_ok=True)] and
      [open(filename, "w")] with [f.write(content)]. *)
Record World : Type := {
  host_checks : Urllib.HostChecks;
  rp_read : list event -> string -> res (string -> string -> bool);
  session_get : list event -> string -> http_reply;
  soup_links : string -> res (list string);
  os_makedirs : list event -> string -> res unit;
  write_file : list event -> string -> string -> write_result
}.

(** The fields of a [WebScraper] set by [__init__] and never assigned
    again; [delay] is in seconds. *)
Record WebScraper : Type := {
  base_dir : string;
  max_depth : Z;
  delay : Z
}.

(** [self.session.headers['User-Agent']] *)
Definition USER_AGENT : string :=
  "Mozilla/5.0 (Windows NT 10.0; Win64; x64) AppleWebKit/537.36".

(** What a run changes: [self.visited_urls], the files on disk, and the
    effects performed, most recent first. *)
Record State : Type := {
  visited_urls : gset string;
  files : gmap string string;
  events : list event
}.

Definition initial_state : State :=
  {| visited_urls := ∅; files := ∅; events := [] |}.

Definition record (e : event) (s : State) : State :=
  {| visited_urls := visited_urls s; files := files s; events := e :: events s |}.

(** [self.visited_urls.add(url)] *)
Definition add_visited (url : string) (s : State) : State :=
  {| visited_urls := {[url]} ∪ visited_urls s; files := files s; events := events s |}.

Definition store_file (filename content : string) (s : State) : State :=
  {| visited_urls := visited_urls s;
     files := <[filename := content]> (files s);
     events := events s |}.

(** The URLs of the [session.get] calls and of the downloads started
    ([MsgScraping] is logged right before each [download_page] call),
    most recent first. *)
Definition gets (evs : list event) : list string :=
  omap (fun e => match e with Get u => Some u | _ => None end) evs.

Definition scraped (evs : list event) : list string :=
  omap (fun e => match e with Log (MsgScraping _ u) => Some u | _ => None end) evs.

(** *** A state and exception monad *)
Definition M (A : Type) : Type := State -> res A * State.

Definition ret {A} (a : A) : M A := fun s => (Ok a, s).
Definition raise {A} (e : exn) : M A := fun s => (Exc e, s).
Definition lift {A} (r : res A) : M A := fun s => (r, s).

Definition bind {A B} (m : M A) (k : A -> M B) : M B :=
  fun s => match m s with
           | (Ok a, s') => k a s'
           | (Exc e, s') => (Exc e, s')
           end.

(** [try: m  except C as e: h e], where [catches] tells the exceptions
    of class [C]. *)
Definition try_except {A} (m : M A) (catches : exn -> bool) (h : exn -> M A) : M A :=
  fun s => match m s with
           | (Ok a, s') => (Ok a, s')
           | (Exc e, s') => if catches e then h e s' else (Exc e, s')
           end.

Definition except_Exception (e : exn) : bool := true.

Declare Scope py_scope.
Delimit Scope py_scope with py.
Notation "x <- m ;; k" := (bind m (fun x => k))
  (at level 100, m at next level, right associativity) : py_scope.
Notation "m ;;; k" := (bind m (fun _ => k))
  (at level 100, right associativity) : py_scope.

Definition logging (m : log_msg) : M unit := fun s => (Ok tt, record (Log m) s).

(** ** The methods of [WebScraper] *)
Section Crawler.
Import PyStr.
Local Open Scope py_scope.

Variable w : World.
Variable self : WebScraper.

Definition urlparse (url : string) : res Urllib.ParseResult :=
  Urllib.urlparse (host_checks w) url.

Definition urljoin (base url : string) : res string :=
  Urllib.urljoin (host_checks w) base url.

(** [rp.set_url(robots_url); rp.read()] *)
Definition robots_read (robots_url : string) : M (string -> string -> bool) :=
  fun s => (rp_read w (events s) robots_url, record (RobotsRead robots_url) s).

(** [time.sleep(seconds)], which raises [ValueError] on a negative
    argument. *)
Definition time_sleep (seconds : Z) : M unit :=
  fun s => if seconds <? 0
           then (Exc (ValueError "sleep length must be non-negative"), s)
           else (Ok tt, record (Sleep seconds) s).

(** [self.session.get(url, timeout=10)] *)
Definition http_get (url : string) : M (Z * string) :=
  fun s => (match session_get w (events s) url with
            | Response code body => Ok (code, body)
            | RequestFailed e => Exc (RequestException (TransportError e))
            | Leaked name => Exc (OtherException name)
            end, record (Get url) s).

(** [response.raise_for_status()] *)
Definition raise_for_status (status_code : Z) : M unit :=
  if (400 <=? status_code) && (status_code <? 600)
  then raise (RequestException (HTTPError status_code))
  else ret tt.

Definition makedirs (dir : string) : M unit :=
  fun s => (os_makedirs w (events s) dir, record (MakeDirs dir) s).

(** [with open(filename, "w", encoding="utf-8") as f: f.write(content)] *)
Definition open_write (filename content : string) : M unit :=
  fun s => match write_file w (events s) filename content with
           | Written =>
               (Ok tt, store_file filename content (record (WriteFile filename content) s))
           | OpenFailed e => (Exc e, record (WriteFile filename content) s)
           | WriteFailed e remains =>
               (Exc e, store_file filename remains (record (WriteFile filename content) s))
           end.

(** Lines 38-44: the body of the [try] of [can_fetch]. *)
Definition check_robots (url : string) : M bool :=
  p1 <- lift (urlparse url) ;;
  p2 <- lift (urlparse url) ;;
  let robots_url :=
    Urllib.scheme p1 +:+ "://" +:+ Urllib.netloc p2 +:+ "/robots.txt" in
  rp <- robots_read robots_url ;;
  ret (rp USER_AGENT url).

(** [WebScraper.can_fetch], lines 35-48. *)
Definition can_fetch (url : string) : M bool :=
  try_except (check_robots url) except_Exception
    (fun e => logging (MsgRobotsError url e) ;;; ret true).

(** [WebScraper.download_page], lines 50-67; [None] is Python's
    [None]. *)
Definition download_page (url : string) : M (option string) :=
  try_except
    (allowed <- can_fetch url ;;
     if negb allowed then
       logging (MsgDisallowed url) ;;; ret None
     else
       time_sleep (delay self) ;;;
       (response <- http_get url ;;
        raise_for_status (fst response) ;;;
        ret (Some (snd response))))
    is_RequestException
    (fun e => logging (MsgDownloadFailed url e) ;;; ret None).

(** [WebScraper.get_filename], lines 82-98. *)
Definition get_filename (url : string) : res string :=
  res_bind (urlparse url) (fun parsed_url =>
    let path := Urllib.path parsed_url in
    let path :=
      if is_empty path || String.eqb path "/" then "/index.html"
      else if endswith_ch "/" path then path +:+ "index.html"
      else if is_empty (OsPath.splitext_ext path) then path +:+ ".html"
      else path in
    let netloc := replace_ch ":" "_" (Urllib.netloc parsed_url) in
    let path := replace_ch "=" "_" (replace_ch "&" "_" (replace_ch "?" "_" path)) in
    Ok (OsPath.join (base_dir self) (netloc +:+ path))).

(** [WebScraper.save_page], lines 69-80. *)
Definition save_page (url content : string) : M unit :=
  try_except
    (filename <- lift (get_filename url) ;;
     makedirs (OsPath.dirname filename) ;;;
     open_write filename content ;;;
     logging (MsgSaved url filename))
    except_Exception
    (fun e => logging (MsgSaveFailed url e)).

(** Lines 124-130: the absolute form of one [href] of the page at
    [url], when the link is to be followed. *)
Definition link_target (url href : string) : res (option string) :=
  res_bind (urljoin url href) (fun next_url =>
  res_bind (urlparse next_url) (fun parsed_next =>
  res_bind (urlparse url) (fun parsed_current =>
    if String.eqb (Urllib.netloc parsed_next) (Urllib.netloc parsed_current)
       && mem (Urllib.scheme parsed_next) ["http"; "https"]
    then Ok (Some next_url)
    else Ok None))).

(** A call of [scrape_website] that may run out of fuel ([None]). *)
Definition call : Type := string -> option Z -> State -> option (res unit * State).

(** Lines 122-132: the [for] loop over the links of the page, with
    [rec] the recursive call.  An exception leaves the loop. *)
Fixpoint follow_links (rec : call) (url : string) (depth : Z)
    (hrefs : list string) (s : State) : option (res unit * State) :=
  match hrefs with
  | [] => Some (Ok tt, s)
  | href :: rest =>
      match link_target url href with
      | Exc e => Some (Exc e, s)
      | Ok None => follow_links rec url depth rest s
      | Ok (Some next_url) =>
          match rec next_url (Some (depth - 1)) s with
          | None => None
          | Some (Exc e, s') => Some (Exc e, s')
          | Some (Ok _, s') => follow_links rec url depth rest s'
          end
      end
  end.

(** Lines 118-135: the [try] block around the parser and the loop. *)
Definition parse_and_follow (rec : call) (url : string) (depth : Z)
    (html_content : string) (s : State) : option (res unit * State) :=
  match soup_links w html_content with
  | Exc e => Some (logging (MsgParseError url e) s)
  | Ok hrefs =>
      match follow_links rec url depth hrefs s with
      | None => None
      | Some (Exc e, s') => Some (logging (MsgParseError url e) s')
      | Some (Ok _, s') => Some (Ok tt, s')
      end
  end.

(** Lines 112-135: the work on a page that has just been marked as
    visited. *)
Definition visit_page (rec : call) (url : string) (depth : Z) (s : State)
    : option (res unit * State) :=
  match download_page url s with
  | (Exc e, s') => Some (Exc e, s')
  | (Ok html_content, s') =>
      match html_content with
      | None => Some (Ok tt, s')
      | Some content =>
          if is_empty content then Some (Ok tt, s')
          else
            match save_page url content s' with
            | (Exc e, s'') => Some (Exc e, s'')
            | (Ok _, s'') => parse_and_follow rec url depth content s''
            end
      end
  end.

(** Lines 102-103: [depth] defaults to [self.max_depth]. *)
Definition effective_depth (depth : option Z) : Z :=
  match depth with None => max_depth self | Some d => d end.

(** Lines 109-110: the page is marked, then the visit is logged. *)
Definition mark_visited (url : string) (depth : Z) (s : State) : State :=
  record (Log (MsgScraping depth url)) (add_visited url s).

(** [WebScraper.scrape_website], lines 100-135, with the recursion
    bounded by [fuel]. *)
Fixpoint scrape_website_fuel (fuel : nat) (url : string) (depth : option Z)
    (s : State) : option (res unit * State) :=
  let depth := effective_depth depth in
  if (depth <? 0) || bool_decide (url ∈ visited_urls s) then Some (Ok tt, s)
  else
    match fuel with
    | O => None
    | S fuel' => visit_page (scrape_website_fuel fuel') url depth (mark_visited url depth s)
    end.

(** The fuel that a call at [depth] needs: one level per remaining
    depth, [depth + 1] levels in all. *)
Definition fuel_for (depth : option Z) : nat :=
  Z.to_nat (effective_depth depth + 1).

Definition scrape_website (url : string) (depth : option Z) (s : State)
    : option (res unit * State) :=
  scrape_website_fuel (fuel_for depth) url depth s.

End Crawler.

(** * Vocabulary of the properties *)

Ltac unfold_py :=
  unfold try_except, bind, lift, ret, raise, logging, except_Exception,
    robots_read, time_sleep, http_get, raise_for_status, makedirs,
    open_write in *.

Ltac run_py := unfold_py; simplify_eq/=; repeat (case_match; simplify_eq/=); try done.

(** What a leaf operation on [url] may change: it leaves the visited set
    alone, only adds effects, starts no download, and issues at most one
    GET, for [url]. *)
Record leaf_step (url : string) (s s' : State) : Prop := {
  leaf_visited : visited_urls s' = visited_urls s;
  leaf_events : events s `suffix_of` events s';
  leaf_scraped : scraped (events s') = scraped (events s);
  leaf_gets : gets (events s') = gets (events s)
              ∨ gets (events s') = url :: gets (events s)
}.

(** The invariant of a run: no URL was requested twice, no download
    was started twice, and every URL requested or started is in the
    visited set. *)
Definition crawl_inv (s : State) : Prop :=
  NoDup (gets (events s)) /\ NoDup (scraped (events s))
  /\ (forall u, u ∈ gets (events s) -> u ∈ visited_urls s)
  /\ (forall u, u ∈ scraped (events s) -> u ∈ visited_urls s).

(** A call that keeps the invariant and only adds to the state. *)
Definition good_call (rec : call) : Prop :=
  forall u d s r s',
    rec u d s = Some (r, s') ->
    (crawl_inv s -> crawl_inv s')
    /\ visited_urls s ⊆ visited_urls s'
    /\ events s `suffix_of` events s'.

(** Network activity: the robots.txt reads and the page requests. *)
Definition is_network (e : event) : bool :=
  match e with RobotsRead _ | Get _ => true | _ => false end.

Definition network_activity (evs : list event) : list event :=
  List.filter is_network evs.

(** *** The link filter in the words of the specification

    A candidate is first resolved against the page's URL; it is kept
    when its authority equals the page's authority and its scheme is
    http or https.  A candidate without an absolute form is not kept. *)
Definition spec_keep (w : World) (url next_url : string) : bool :=
  match urlparse w next_url, urlparse w url with
  | Ok candidate, Ok page =>
      String.eqb (Urllib.netloc candidate) (Urllib.netloc page)
      && (String.eqb (Urllib.scheme candidate) "http"
          || String.eqb (Urllib.scheme candidate) "https")
  | _, _ => false
  end.

Definition spec_resolved (w : World) (url : string) (hrefs : list string) : list string :=
  omap (fun href => match urljoin w url href with
                    | Ok next_url => Some next_url
                    | Exc _ => None
                    end) hrefs.

Definition spec_followed (w : World) (url : string) (hrefs : list string) : list string :=
  List.filter (spec_keep w url) (spec_resolved w url hrefs).



(** *** The failure kinds of the specification's fetcher *)
Inductive failure_kind : Type := StatusError | NetworkError | DisallowedByPolicy.

(** The kind of failure that the environment causes for a fetch of
    [url] from state [s], if any: a denial by robots.txt, a failed
    request, or a response with an error status. *)
Definition fetch_failure_kind (w : World) (self : WebScraper) (url : string)
    (s : State) : option failure_kind :=
  match can_fetch w url s with
  | (Ok false, _) => Some DisallowedByPolicy
  | (Ok true, s1) =>
      match session_get w (events (record (Sleep (delay self)) s1)) url with
      | RequestFailed _ => Some NetworkError
      | Leaked _ => None
      | Response status_code _ =>
          if (400 <=? status_code) && (status_code <? 600)
          then Some StatusError else None
      end
  | (Exc _, _) => None
  end.

(** An environment in which [session.get] raises nothing but
    [requests.RequestException]s. *)
Definition no_leak (w : World) : Prop :=
  forall evs url name, session_get w evs url <> Leaked name.

(** *** [urllib.robotparser.RobotFileParser.read] (CPython 3.11)

    [read()] calls [urlopen] on the robots.txt URL.  An [HTTPError] is
    absorbed: 401 and 403 set [disallow_all], any other 4xx sets
    [allow_all], and any other status sets nothing, so that nothing has
    been parsed and [can_fetch] answers [False].  Any other exception of
    [urlopen], of reading or of decoding the body leaves [read()]. *)
Module RobotParser.

Inductive fetched : Type :=
| Body (rules : string -> string -> bool)
| Status (code : Z)
| Raised (e : exn).

Definition allow_all : string -> string -> bool := fun _ _ => true.
Definition disallow_all : string -> string -> bool := fun _ _ => false.

Definition read (f : fetched) : res (string -> string -> bool) :=
  match f with
  | Body rules => Ok rules
  | Status code =>
      if (code =? 401) || (code =? 403) then Ok disallow_all
      else if (400 <=? code) && (code <? 500) then Ok allow_all
      else Ok disallow_all
  | Raised e => Exc e
  end.

(** The specification's words: retrieving the file has failed when
    no file was obtained, be it for an error status or for an
    exception. *)
Definition retrieval_failed (f : fetched) : bool :=
  match f with
  | Body _ => false
  | Status _ | Raised _ => true
  end.

End RobotParser.

(** *** Sample environments *)
Module Sample.

Definition checks : Urllib.HostChecks :=
  {| Urllib.bracketed_host_ok := fun _ => false; Urllib.nfkc_ok := fun _ => true |}.

Definition allow_all : string -> string -> bool := fun _ _ => true.
Definition deny_all : string -> string -> bool := fun _ _ => false.

(** A site given by the reply to each URL and the links of each
    body; robots.txt allows everything and the disk never fails. *)
Definition site (reply : string -> http_reply) (links : string -> res (list string)) : World :=
  {| host_checks := checks;
     rp_read := fun _ _ => Ok allow_all;
     session_get := fun _ url => reply url;
     soup_links := links;
     os_makedirs := fun _ _ => Ok tt;
     write_file := fun _ _ _ => Written |}.

Definition scraper : WebScraper :=
  {| base_dir := "/srv/scraped_pages"; max_depth := 3; delay := 1 |}.

(** Every URL answers with its own text as body. *)
Definition echo (url : string) : http_reply := Response 200 url.

(** The page of the specification's origin-filtering example. *)
Definition origin_links (body : string) : res (list string) :=
  if String.eqb body "http://same.example/"
  then Ok ["http://same.example/a"; "https://same.example/b";
           "http://other.example/c"; "ftp://same.example/d"]
  else Ok [].


(** Two pages that link to each other and to themselves. *)
Definition cyclic_links (body : string) : res (list string) :=
  if String.eqb body "http://a.test/" then Ok ["/"; "/b"; "/b"]
  else if String.eqb body "http://a.test/b" then Ok ["/"; "/b"]
  else Ok [].

(** A page linking to [a] and to [a/]. *)
Definition slash_links (body : string) : res (list string) :=
  if String.eqb body "http://ex.com/" then Ok ["a"; "a/"] else Ok [].

(** The end-to-end scenario of the specification. *)
Definition scenario_links (body : string) : res (list string) :=
  if String.eqb body "http://a.test/" then Ok ["/p1"; "http://b.test/"] else Ok [].

Definition not_found : World := site (fun _ => Response 404 "Not Found") (fun _ => Ok []).
Definition unreachable : World := site (fun _ => RequestFailed ConnectionError) (fun _ => Ok []).
Definition empty_pages : World := site (fun _ => Response 200 EmptyString) (fun _ => Ok []).

Definition forbidden : World :=
  {| host_checks := checks;
     rp_read := fun _ _ => Ok deny_all;
     session_get := fun _ url => echo url;
     soup_links := fun _ => Ok [];
     os_makedirs := fun _ _ => Ok tt;
     write_file := fun _ _ _ => Written |}.

(** robots.txt cannot be retrieved. *)
Definition no_robots : World :=
  {| host_checks := checks;
     rp_read := fun _ _ => Exc (OtherException "URLError");
     session_get := fun _ url => echo url;
     soup_links := fun _ => Ok [];
     os_makedirs := fun _ _ => Ok tt;
     write_file := fun _ _ _ => Written |}.

(** robots.txt is answered with an HTTP error status. *)
Definition robots_status (code : Z) : World :=
  {| host_checks := checks;
     rp_read := fun _ _ => RobotParser.read (RobotParser.Status code);
     session_get := fun _ url => echo url;
     soup_links := fun _ => Ok [];
     os_makedirs := fun _ _ => Ok tt;
     write_file := fun _ _ _ => Written |}.

(** The bad host [a..test]: reading its robots.txt raises
    [UnicodeError] (the label is empty), and [session.get] lets
    urllib3's [LocationParseError] through. *)
Definition bad_host : World :=
  {| host_checks := checks;
     rp_read := fun _ _ => Exc (OtherException "UnicodeError");
     session_get := fun _ url => if String.eqb url "http://a..test/"
                                 then Leaked "LocationParseError" else echo url;
     soup_links := fun _ => Ok [];
     os_makedirs := fun _ _ => Ok tt;
     write_file := fun _ _ _ => Written |}.

(** A page with two links; the request of the first one is
    redirected to a bad host, and [session.get] lets the
    [LocationParseError] through. *)
Definition bad_redirect : World :=
  site (fun url => if String.eqb url "http://a.test/moved"
                   then Leaked "LocationParseError" else echo url)
       (fun body => if String.eqb body "http://a.test/"
                    then Ok ["/moved"; "/good"] else Ok []).

(** The same page; the request of the first link fails with a
    [requests.ConnectionError]. *)
Definition refused_redirect : World :=
  site (fun url => if String.eqb url "http://a.test/moved"
                   then RequestFailed ConnectionError else echo url)
       (fun body => if String.eqb body "http://a.test/"
                    then Ok ["/moved"; "/good"] else Ok []).

(** The result of a whole run from the initial state: the URLs for
    which a download was started, in chronological order. *)
Definition crawled (w : World) (self : WebScraper) (url : string) (depth : option Z)
    : option (list string) :=
  match scrape_website w self url depth initial_state with
  | Some (_, s) => Some (rev (scraped (events s)))
  | None => None
  end.

Definition requested (w : World) (self : WebScraper) (url : string) (depth : option Z)
    : option (list string) :=
  match scrape_website w self url depth initial_state with
  | Some (_, s) => Some (rev (gets (events s)))
  | None => None
  end.

End Sample.

(** * The rest of the program, and more vocabulary *)

(** ** [os.path.abspath] (posixpath) *)
Module PosixPath.
Import PyStr.

(** [os.path.isabs(s)] *)
Definition isabs (s : string) : bool := startswith "/" s.

(** One turn of the loop of [normpath] over the components;
    [new_comps] is kept in reverse. *)
Definition normpath_step (initial_slashes : nat) (rev_new_comps : list string)
    (comp : string) : list string :=
  if is_empty comp || String.eqb comp "." then rev_new_comps
  else if negb (String.eqb comp "..")
          || (Nat.eqb initial_slashes 0 && match rev_new_comps with [] => true | _ => false end)
          || match rev_new_comps with
             | last :: _ => String.eqb last ".."
             | [] => false
             end
  then comp :: rev_new_comps
  else List.tl rev_new_comps.

Fixpoint slashes (n : nat) : string :=
  match n with
  | O => EmptyString
  | S n' => String "/" (slashes n')
  end.

(** [os.path.normpath(path)] *)
Definition normpath (path : string) : string :=
  if is_empty path then "."
  else
    let initial_slashes :=
      if startswith "/" path
      then if startswith "//" path && negb (startswith "///" path) then 2%nat else 1%nat
      else 0%nat in
    let comps := split "/" path in
    let new_comps := List.rev (fold_left (normpath_step initial_slashes) comps []) in
    let path := slashes initial_slashes +:+ join "/" new_comps in
    if is_empty path then "." else path.

(** [os.path.abspath(path)], with [cwd] the answer of [os.getcwd()]. *)
Definition abspath (cwd path : string) : string :=
  normpath (if isabs path then path else OsPath.join cwd path).

End PosixPath.

(** ** [WebScraper.__init__] and [main] *)

(** [WebScraper.__init__], lines 23-33: the fields of the scraper and
    the state it starts in; [disk] is what the file system holds when
    the scraper is made, [cwd] the working directory. *)
Definition __init__ (cwd : string) (disk : gmap string string)
    (base_dir : string) (max_depth delay : Z) : WebScraper * State :=
  ({| base_dir := PosixPath.abspath cwd base_dir;
      max_depth := max_depth;
      delay := delay |},
   {| visited_urls := ∅; files := disk; events := [] |}).



(** ** Vocabulary of the further properties *)

(** The robots.txt that [can_fetch] reads for a URL. *)
Definition robots_url_of (w : World) (url : string) : option string :=
  match urlparse w url with
  | Ok p => Some (Urllib.scheme p +:+ "://" +:+ Urllib.netloc p +:+ "/robots.txt")
  | Exc _ => None
  end.

(** The effects that the work on the page [url], visited at depth [d],
    may perform itself (lines 109-116 and 135). *)
Definition own_event (w : World) (self : WebScraper) (url : string) (d : Z)
    (e : event) : Prop :=
  match e with
  | Log (MsgScraping k u) => k = d /\ u = url
  | Log (MsgRobotsError u _) | Log (MsgDisallowed u) | Log (MsgDownloadFailed u _)
  | Log (MsgSaveFailed u _) | Log (MsgParseError u _) => u = url
  | Log (MsgSaved u f) => u = url /\ get_filename w self url = Ok f
  | RobotsRead r => robots_url_of w url = Some r
  | Sleep k => k = delay self
  | Get u => u = url
  | MakeDirs dir => exists f, get_filename w self url = Ok f /\ dir = OsPath.dirname f
  | WriteFile f _ => get_filename w self url = Ok f
  end.

(** The calls that a call on [seed] at depth [d0] can lead to: a link
    of a page visited at a depth [d >= 0] that passes lines 124-130 is
    called at depth [d - 1]. *)
Inductive reached (w : World) (seed : string) (d0 : Z) : string -> Z -> Prop :=
| reached_seed : reached w seed d0 seed d0
| reached_link (url : string) (d : Z) (href next_url : string) :
    reached w seed d0 url d ->
    0 <= d ->
    link_target w url href = Ok (Some next_url) ->
    reached w seed d0 next_url (d - 1).

Definition run_event (w : World) (self : WebScraper) (seed : string) (d0 : Z)
    (e : event) : Prop :=
  exists url d, reached w seed d0 url d /\ 0 <= d /\ own_event w self url d e.

(** [s'] has the effects of [s] and, after them, effects that all
    satisfy [Q]. *)
Definition grows (Q : event -> Prop) (s s' : State) : Prop :=
  exists new, events s' = new ++ events s /\ Forall Q new.

(** A URL of authority [nl] with scheme http or https. *)
Definition on_site (w : World) (nl : string) (u : string) : Prop :=
  exists p, urlparse w u = Ok p /\ Urllib.netloc p = nl
            /\ (Urllib.scheme p = "http" \/ Urllib.scheme p = "https").

(** Every request is made right after a sleep of [delay] seconds, which
    comes right after the robots.txt of the URL's own scheme and
    authority was read with rules that allow the URL, or right after
    the warning that the check of the URL failed. *)
Fixpoint polite (w : World) (self : WebScraper) (evs : list event) : Prop :=
  match evs with
  | [] => True
  | Get u :: rest =>
      match rest with
      | Sleep k :: RobotsRead r :: before =>
          k = delay self /\ robots_url_of w u = Some r
          /\ exists rules, rp_read w before r = Ok rules /\ rules USER_AGENT u = true
      | Sleep k :: Log (MsgRobotsError u' _) :: _ => k = delay self /\ u' = u
      | _ => False
      end
      /\ polite w self rest
  | _ :: rest => polite w self rest
  end.

(** The stages of [urlsplit] after the scheme has been taken off: the
    authority is cut at the first [/], [?] or [#] and checked; then the
    fragment and the query are cut off the rest. *)
Definition split_netloc (hc : Urllib.HostChecks) (url : string) : res (string * string) :=
  if PyStr.startswith "//" url then
    let '(nl, rest) := Urllib._splitnetloc (PyStr.drop 2 url) in
    if (PyStr.contains "[" nl && negb (PyStr.contains "]" nl))
       || (PyStr.contains "]" nl && negb (PyStr.contains "[" nl))
    then Exc (ValueError "Invalid IPv6 URL")
    else if PyStr.contains "[" nl && PyStr.contains "]" nl
         then res_bind (Urllib._check_bracketed_netloc hc nl) (fun _ => Ok (nl, rest))
         else Ok (nl, rest)
  else Ok (EmptyString, url).

Definition split_tail (hc : Urllib.HostChecks) (scheme1 nl url : string)
    : res Urllib.SplitResult :=
  let '(url, frag) :=
    match PyStr.partition "#" url with
    | Some (u, f) => (u, f)
    | None => (url, EmptyString)
    end in
  let '(url, qry) :=
    match PyStr.partition "?" url with
    | Some (u, q) => (u, q)
    | None => (url, EmptyString)
    end in
  res_bind (Urllib._checknetloc hc nl) (fun _ =>
    Ok {| Urllib.sp_scheme := scheme1; Urllib.sp_netloc := nl;
          Urllib.sp_path := url; Urllib.sp_query := qry;
          Urllib.sp_fragment := frag |}).

Definition split_after_scheme (hc : Urllib.HostChecks) (scheme1 url : string)
    : res Urllib.SplitResult :=
  res_bind (split_netloc hc url) (fun '(nl, url) => split_tail hc scheme1 nl url).

(** Two results of [urlsplit] that agree on everything but the query
    and the fragment. *)
Definition same_place (r1 r2 : res Urllib.SplitResult) : Prop :=
  match r1, r2 with
  | Ok a, Ok b =>
      Urllib.sp_scheme a = Urllib.sp_scheme b
      /\ Urllib.sp_netloc a = Urllib.sp_netloc b
      /\ Urllib.sp_path a = Urllib.sp_path b
  | Exc e1, Exc e2 => e1 = e2
  | _, _ => False
  end.

(** A call whose effects all belong to the run from [seed]. *)
Definition traced_call (w : World) (self : WebScraper) (seed : string) (d0 : Z)
    (rec : call) : Prop :=
  forall u d s r s',
    reached w seed d0 u d -> rec u (Some d) s = Some (r, s') ->
    grows (run_event w self seed d0) s s'.

(** Lines 85-96 of [get_filename]: the file part made from the path of
    the URL. *)
Definition file_part (path : string) : string :=
  let path :=
    if PyStr.is_empty path || String.eqb path "/" then "/index.html"
    else if PyStr.endswith_ch "/" path then path +:+ "index.html"
    else if PyStr.is_empty (OsPath.splitext_ext path) then path +:+ ".html"
    else path in
  PyStr.replace_ch "=" "_" (PyStr.replace_ch "&" "_" (PyStr.replace_ch "?" "_" path)).

(** A path that is empty or starts with a slash. *)
Definition rooted (s : string) : Prop :=
  s = EmptyString \/ exists r, s = String "/" r.

(** More sample environments. *)
Module MoreSamples.

(** The site of [Sample.origin_links] on a disk that refuses every
    write. *)
Definition read_only_disk : World :=
  {| host_checks := Sample.checks;
     rp_read := fun _ _ => Ok Sample.allow_all;
     session_get := fun _ url => Sample.echo url;
     soup_links := Sample.origin_links;
     os_makedirs := fun _ _ => Ok tt;
     write_file := fun _ _ _ => OpenFailed (OSError "Read-only file system") |}.

Definition parsed (scheme netloc path : string) : Urllib.ParseResult :=
  {| Urllib.scheme := scheme; Urllib.netloc := netloc; Urllib.path := path;
     Urllib.params := EmptyString; Urllib.query := EmptyString;
     Urllib.fragment := EmptyString |}.

End MoreSamples.
(** * Properties *)

(** ** The leaves: [can_fetch], [download_page], [save_page] *)

Section Leaves.
Variable w : World.
Variable self : WebScraper.

Lemma check_robots_step url s r s' :
  check_robots w url s = (r, s') ->
  visited_urls s' = visited_urls s /\ files s' = files s
  /\ gets (events s') = gets (events s)
  /\ scraped (events s') = scraped (events s)
  /\ events s `suffix_of` events s'.
Proof.
  unfold check_robots. intros H. run_py;
    repeat split; simpl; try reflexivity;
    repeat apply suffix_cons_r; reflexivity.
Qed.

Lemma can_fetch_returns url s :
  exists b s', can_fetch w url s = (Ok b, s').
Proof.
  unfold can_fetch.
  destruct (check_robots w url s) as [[b|e] s1] eqn:E; unfold_py; rewrite E; eauto.
Qed.

Lemma can_fetch_step url s r s' :
  can_fetch w url s = (r, s') ->
  visited_urls s' = visited_urls s /\ files s' = files s
  /\ gets (events s') = gets (events s)
  /\ scraped (events s') = scraped (events s)
  /\ events s `suffix_of` events s'.
Proof.
  unfold can_fetch. intros H.
  destruct (check_robots w url s) as [[b|e] s1] eqn:E;
    pose proof (check_robots_step _ _ _ _ E) as (E1 & E2 & E3 & E4 & E5).
  all: unfold_py. all: rewrite E in H. all: simplify_eq/=.
  all: rewrite ?E1, ?E2, ?E3, ?E4.
  all: repeat split; try reflexivity; try assumption.
  all: try (apply suffix_cons_r; assumption).
Qed.

Lemma download_page_step url s r s' :
  download_page w self url s = (r, s') ->
  leaf_step url s s' /\ files s' = files s.
Proof.
  unfold download_page. intros H.
  destruct (can_fetch_returns url s) as (b & s1 & E).
  pose proof (can_fetch_step _ _ _ _ E) as (E1 & E2 & E3 & E4 & E5).
  unfold_py. rewrite E in H.
  destruct b; simpl in H; run_py.
  all: split; [split|]; simpl; rewrite ?E1, ?E2, ?E3, ?E4; try reflexivity.
  all: try (repeat apply suffix_cons_r; assumption).
  all: try assumption.
  all: first [ left; reflexivity | right; reflexivity ].
Qed.

(** With a delay that [time.sleep] accepts and a [session.get] that
    raises nothing but [requests.RequestException]s, [download_page]
    raises nothing: its handler catches these. *)
Lemma download_page_returns url s :
  0 <= delay self -> no_leak w ->
  exists c s', download_page w self url s = (Ok c, s').
Proof.
  intros Hd Hw. unfold download_page.
  destruct (can_fetch_returns url s) as (b & s1 & E).
  unfold_py. rewrite E.
  destruct b; simpl; [|eauto].
  destruct (delay self <? 0) eqn:Hneg; [lia|].
  destruct (session_get w _ url) as [code body|e|name] eqn:Eg; simpl;
    [|eauto|by apply Hw in Eg].
  destruct ((400 <=? code) && (code <? 600)); simpl; eauto.
Qed.

(** What [download_page] raises: the [ValueError] of [time.sleep] for
    a negative delay, or what [session.get] let through. *)
Lemma download_page_raises url s e s' :
  download_page w self url s = (Exc e, s') ->
  (delay self < 0 /\ e = ValueError "sleep length must be non-negative")
  \/ (exists evs name, session_get w evs url = Leaked name
                       /\ e = OtherException name).
Proof.
  unfold download_page.
  destruct (can_fetch_returns url s) as (b & s1 & E).
  unfold_py. rewrite E.
  destruct b; simpl; [|done].
  destruct (delay self <? 0) eqn:Hneg; simpl; [intros [= <- _]; left; split; [lia|done]|].
  destruct (session_get w _ url) as [code body|e'|name] eqn:Eg; simpl.
  - destruct ((400 <=? code) && (code <? 600)); simpl; done.
  - done.
  - intros [= <- _]. right. eauto.
Qed.

(** [save_page] raises nothing: its handler catches every exception. *)
Lemma save_page_returns url content s :
  exists s', save_page w self url content s = (Ok tt, s').
Proof.
  unfold save_page. unfold_py.
  destruct (get_filename w self url) as [f|e]; simpl; [|eauto].
  destruct (os_makedirs w (events s) (OsPath.dirname f)) as [[]|e]; simpl; [|eauto].
  destruct (write_file w _ f content) as [|e|e remains]; simpl; eauto.
Qed.

Lemma save_page_step url content s r s' :
  save_page w self url content s = (r, s') ->
  visited_urls s' = visited_urls s
  /\ events s `suffix_of` events s'
  /\ scraped (events s') = scraped (events s)
  /\ gets (events s') = gets (events s).
Proof.
  unfold save_page. intros H. run_py;
    repeat split; simpl; try reflexivity;
    repeat apply suffix_cons_r; reflexivity.
Qed.

End Leaves.

(** ** The traversal: invariant, termination, containment *)

Section Traversal.
Variable w : World.
Variable self : WebScraper.

Lemma crawl_inv_initial : crawl_inv initial_state.
Proof.
  unfold crawl_inv, initial_state; simpl.
  repeat split; try apply NoDup_nil_2; intros u Hu; inversion Hu.
Qed.

Lemma scrape_website_fuel_unfold fuel url depth s :
  scrape_website_fuel w self fuel url depth s =
  if (effective_depth self depth <? 0) || bool_decide (url ∈ visited_urls s)
  then Some (Ok tt, s)
  else match fuel with
       | O => None
       | S fuel' =>
           visit_page w self (scrape_website_fuel w self fuel') url
             (effective_depth self depth)
             (mark_visited url (effective_depth self depth) s)
       end.
Proof. destruct fuel; reflexivity. Qed.

Lemma scrape_website_fuel_visited_noop fuel url depth s :
  url ∈ visited_urls s ->
  scrape_website_fuel w self fuel url depth s = Some (Ok tt, s).
Proof.
  intros Hin. rewrite scrape_website_fuel_unfold.
  by rewrite (bool_decide_eq_true_2 _ Hin), orb_true_r.
Qed.

Lemma scrape_website_visited_noop url depth s :
  url ∈ visited_urls s ->
  scrape_website w self url depth s = Some (Ok tt, s).
Proof. apply scrape_website_fuel_visited_noop. Qed.

Lemma follow_links_good rec url depth :
  good_call rec ->
  forall hrefs s r s',
    follow_links w rec url depth hrefs s = Some (r, s') ->
    (crawl_inv s -> crawl_inv s')
    /\ visited_urls s ⊆ visited_urls s'
    /\ events s `suffix_of` events s'.
Proof.
  intros Hrec. induction hrefs as [|href rest IH]; intros s r s' H; simpl in H.
  - by simplify_eq.
  - destruct (link_target w url href) as [[next_url|]|e]; [| eauto | by simplify_eq].
    destruct (rec next_url (Some (depth - 1)) s) as [[[[]|e] s1]|] eqn:E; [| |done].
    + destruct (Hrec _ _ _ _ _ E) as (I1 & V1 & E1).
      destruct (IH _ _ _ H) as (I2 & V2 & E2).
      split; [auto|]. split; [by etrans|by etrans].
    + simplify_eq. eauto.
Qed.

Lemma parse_and_follow_good rec url depth content :
  good_call rec ->
  forall s r s',
    parse_and_follow w rec url depth content s = Some (r, s') ->
    (crawl_inv s -> crawl_inv s')
    /\ visited_urls s ⊆ visited_urls s'
    /\ events s `suffix_of` events s'.
Proof.
  intros Hrec s r s' H. unfold parse_and_follow in H.
  destruct (soup_links w content) as [hrefs|e].
  - destruct (follow_links w rec url depth hrefs s) as [[[[]|e] s1]|] eqn:E; [| |done];
      destruct (follow_links_good _ _ _ Hrec _ _ _ _ E) as (I1 & V1 & E1);
      unfold logging in H; simplify_eq; [done|].
    split; [exact I1|]. split; [exact V1|]. by apply suffix_cons_r.
  - unfold logging in H. simplify_eq.
    split; [done|]. split; [done|]. by apply suffix_cons_r.
Qed.

Lemma leaf_step_inv url s s' :
  leaf_step url s s' -> url ∈ visited_urls s -> url ∉ gets (events s) ->
  crawl_inv s -> crawl_inv s'.
Proof.
  intros [Hv He Hs Hg] Hin Hnot (N1 & N2 & G1 & G2).
  unfold crawl_inv. rewrite Hs, Hv.
  destruct Hg as [Hg|Hg]; rewrite Hg; repeat split; try done.
  - by apply NoDup_cons_2.
  - intros u [->|Hu]%elem_of_cons; auto.
Qed.

Lemma mark_visited_inv url depth s :
  url ∉ visited_urls s -> crawl_inv s ->
  crawl_inv (mark_visited url depth s)
  /\ url ∉ gets (events (mark_visited url depth s)).
Proof.
  intros Hnot (N1 & N2 & G1 & G2). unfold crawl_inv, mark_visited; simpl.
  split; [|by intros ?%G1].
  repeat split; try done.
  - apply NoDup_cons_2; [|done]. by intros ?%G2.
  - intros u Hu. apply elem_of_union_r. auto.
  - intros u [->|Hu]%elem_of_cons; [set_solver|]. apply elem_of_union_r. auto.
Qed.

Lemma visit_page_good rec url depth :
  good_call rec ->
  forall s r s',
    visit_page w self rec url depth s = Some (r, s') ->
    (url ∈ visited_urls s -> url ∉ gets (events s) -> crawl_inv s -> crawl_inv s')
    /\ visited_urls s ⊆ visited_urls s'
    /\ events s `suffix_of` events s'.
Proof.
  intros Hrec s r s' H. unfold visit_page in H.
  destruct (download_page w self url s) as [rd s1] eqn:Ed.
  destruct (download_page_step _ _ _ _ _ _ Ed) as [L1 _].
  pose proof (leaf_step_inv _ _ _ L1) as I1.
  destruct L1 as [V1 E1 _ _].
  assert (V1' : visited_urls s ⊆ visited_urls s1) by (by rewrite V1).
  destruct rd as [[content|]|e]; [| by simplify_eq | by simplify_eq].
  destruct (PyStr.is_empty content); [by simplify_eq|].
  destruct (save_page w self url content s1) as [rs s2] eqn:Es.
  destruct (save_page_step _ _ _ _ _ _ _ Es) as (V2 & E2 & S2 & G2).
  assert (I2 : crawl_inv s1 -> crawl_inv s2).
  { intros (N1 & N2 & G1 & G1'). unfold crawl_inv. by rewrite S2, G2, V2. }
  assert (V2' : visited_urls s1 ⊆ visited_urls s2) by (by rewrite V2).
  destruct rs as [[]|e].
  - destruct (parse_and_follow_good _ _ _ _ Hrec _ _ _ H) as (I3 & V3 & E3).
    split; [auto|]. split; [by repeat (etrans; [eassumption|])|].
    etrans; [exact E1|]. by etrans.
  - simplify_eq. split; [auto|]. split; [by etrans|by etrans].
Qed.

Lemma add_visited_subseteq url s : visited_urls s ⊆ visited_urls (add_visited url s).
Proof. simpl. apply union_subseteq_r. Qed.

Lemma scrape_website_fuel_good fuel : good_call (scrape_website_fuel w self fuel).
Proof.
  induction fuel as [|fuel IH]; intros url depth s r s' H;
    rewrite scrape_website_fuel_unfold in H;
    destruct ((effective_depth self depth <? 0) || bool_decide (url ∈ visited_urls s))
      eqn:Hguard; simplify_eq; try done.
  apply orb_false_iff in Hguard as [_ Hvis].
  apply bool_decide_eq_false in Hvis.
  destruct (visit_page_good _ _ _ IH _ _ _ H) as (I2 & V2 & E2).
  split; [|split].
  - intros Hinv.
    destruct (mark_visited_inv url (effective_depth self depth) s Hvis Hinv) as [I1 Hg].
    apply I2; [|done|done]. simpl. apply elem_of_union_l, elem_of_singleton_2. done.
  - etrans; [apply (add_visited_subseteq url)|exact V2].
  - simpl in E2. by eapply suffix_cons_l.
Qed.

(** Termination: a call at [depth] returns with [depth + 1] units of
    fuel, whatever the environment answers. *)
Lemma follow_links_total rec url depth :
  (forall u s, exists r s', rec u (Some (depth - 1)) s = Some (r, s')) ->
  forall hrefs s, exists r s', follow_links w rec url depth hrefs s = Some (r, s').
Proof.
  intros Hrec. induction hrefs as [|href rest IH]; intros s; simpl; [eauto|].
  destruct (link_target w url href) as [[next_url|]|e]; eauto.
  destruct (Hrec next_url s) as ([[]|e] & s1 & ->); eauto.
Qed.

Lemma visit_page_total rec url depth s :
  (forall u s, exists r s', rec u (Some (depth - 1)) s = Some (r, s')) ->
  exists r s', visit_page w self rec url depth s = Some (r, s').
Proof.
  intros Hrec. unfold visit_page.
  destruct (download_page w self url s) as [[[content|]|e] s1]; eauto.
  destruct (PyStr.is_empty content); eauto.
  destruct (save_page w self url content s1) as [[[]|e] s2]; eauto.
  unfold parse_and_follow.
  destruct (soup_links w content) as [hrefs|e]; [|unfold logging; eauto].
  destruct (follow_links_total rec url depth Hrec hrefs s2) as ([[]|e] & s3 & ->);
    unfold logging; eauto.
Qed.

Lemma scrape_website_fuel_total fuel :
  forall url depth s,
    (Z.to_nat (effective_depth self depth + 1) <= fuel)%nat ->
    exists r s', scrape_website_fuel w self fuel url depth s = Some (r, s').
Proof.
  induction fuel as [|fuel IH]; intros url depth s Hfuel;
    rewrite scrape_website_fuel_unfold;
    destruct ((effective_depth self depth <? 0) || bool_decide (url ∈ visited_urls s))
      eqn:Hguard; eauto;
    apply orb_false_iff in Hguard as [Hd _]; apply Z.ltb_ge in Hd; [lia|].
  apply visit_page_total. intros u s1. apply IH. simpl. lia.
Qed.

Lemma scrape_website_total url depth s :
  exists r s', scrape_website w self url depth s = Some (r, s').
Proof. apply scrape_website_fuel_total. unfold fuel_for. lia. Qed.

(** More fuel than needed changes nothing. *)
Lemma follow_links_ext rec1 rec2 url depth :
  (forall u s r, rec1 u (Some (depth - 1)) s = Some r ->
                 rec2 u (Some (depth - 1)) s = Some r) ->
  forall hrefs s r,
    follow_links w rec1 url depth hrefs s = Some r ->
    follow_links w rec2 url depth hrefs s = Some r.
Proof.
  intros Hrec. induction hrefs as [|href rest IH]; intros s r H; simpl in *; [done|].
  destruct (link_target w url href) as [[next_url|]|e]; eauto.
  destruct (rec1 next_url (Some (depth - 1)) s) as [[r1 s1]|] eqn:E; [|done].
  rewrite (Hrec _ _ _ E). destruct r1; eauto.
Qed.

Lemma scrape_website_fuel_mono fuel :
  forall fuel' url depth s r,
    (fuel <= fuel')%nat ->
    scrape_website_fuel w self fuel url depth s = Some r ->
    scrape_website_fuel w self fuel' url depth s = Some r.
Proof.
  induction fuel as [|fuel IH]; intros fuel' url depth s r Hle H;
    rewrite scrape_website_fuel_unfold in H; rewrite scrape_website_fuel_unfold;
    destruct ((effective_depth self depth <? 0) || bool_decide (url ∈ visited_urls s));
    try done.
  destruct fuel' as [|fuel']; [lia|].
  unfold visit_page in *.
  destruct (download_page w self url _) as [[[content|]|e] s1]; try done.
  destruct (PyStr.is_empty content); try done.
  destruct (save_page w self url content s1) as [[[]|e] s2]; try done.
  unfold parse_and_follow in *.
  destruct (soup_links w content) as [hrefs|e]; [|done].
  destruct (follow_links w (scrape_website_fuel w self fuel) url _ hrefs s2)
    as [r1|] eqn:E; [|done].
  erewrite follow_links_ext; [exact H| |exact E].
  intros u s3 r3 H3. eapply IH; [lia|exact H3].
Qed.

Lemma scrape_website_fuel_enough fuel url depth s :
  (fuel_for self depth <= fuel)%nat ->
  scrape_website_fuel w self fuel url depth s = scrape_website w self url depth s.
Proof.
  intros Hle. destruct (scrape_website_total url depth s) as (r & s' & E).
  rewrite E. eapply scrape_website_fuel_mono; [exact Hle|exact E].
Qed.

(** Containment: nothing raised below line 116 leaves the [try] of
    lines 118-135, whatever the recursive calls do. *)
Lemma parse_and_follow_quiet rec url depth content s r s' :
  parse_and_follow w rec url depth content s = Some (r, s') -> r = Ok tt.
Proof.
  unfold parse_and_follow, logging. intros H.
  destruct (soup_links w content) as [hrefs|e]; [|by simplify_eq].
  destruct (follow_links w rec url depth hrefs s) as [[[[]|e] s1]|];
    by simplify_eq.
Qed.

(** What a call raises was raised by the download of its own page:
    everything else is caught on the way. *)
Lemma visit_page_raises rec url depth s e s' :
  visit_page w self rec url depth s = Some (Exc e, s') ->
  download_page w self url s = (Exc e, s').
Proof.
  intros H. unfold visit_page in H.
  destruct (download_page w self url s) as [[[content|]|e1] s1]; [| |by simplify_eq].
  - destruct (PyStr.is_empty content); [by simplify_eq|].
    destruct (save_page_returns w self url content s1) as (s2 & E2). rewrite E2 in H.
    by apply parse_and_follow_quiet in H.
  - by simplify_eq.
Qed.

Lemma scrape_website_fuel_raises fuel url depth s e s' :
  scrape_website_fuel w self fuel url depth s = Some (Exc e, s') ->
  download_page w self url (mark_visited url (effective_depth self depth) s)
  = (Exc e, s').
Proof.
  intros H. rewrite scrape_website_fuel_unfold in H.
  destruct ((effective_depth self depth <? 0) || bool_decide (url ∈ visited_urls s));
    [by simplify_eq|].
  destruct fuel; [done|]. by eapply visit_page_raises.
Qed.

Lemma scrape_website_fuel_quiet fuel url depth s r s' :
  0 <= delay self -> no_leak w ->
  scrape_website_fuel w self fuel url depth s = Some (r, s') -> r = Ok tt.
Proof.
  intros Hd Hw H. destruct r as [[]|e]; [done|].
  apply scrape_website_fuel_raises, download_page_raises in H.
  destruct H as [[Hneg _]|(evs & name & Hl & _)]; [lia|by apply Hw in Hl].
Qed.

End Traversal.

(** * The claims *)

(** ** C2: a visited URL is not traversed again *)

(** C2.  For every URL already in the visited set, [scrape_website] is a
    no-op: it returns at once, with the crawler state (visited set,
    files, and effects performed: no fetch, no write, no recursive call)
    exactly as it was, whatever the depth and the fuel. *)
Theorem revisit_is_noop (w : World) (self : WebScraper) (fuel : nat)
    (url : string) (depth : option Z) (s : State) :
  url ∈ visited_urls s ->
  scrape_website_fuel w self fuel url depth s = Some (Ok tt, s)
  /\ scrape_website w self url depth s = Some (Ok tt, s).
Proof.
  intros Hin. split.
  - by apply scrape_website_fuel_visited_noop.
  - by apply scrape_website_visited_noop.
Qed.

Lemma revisit_is_noop_witness :
  let s := add_visited "http://a.test/" initial_state in
  scrape_website_fuel Sample.not_found Sample.scraper 0 "http://a.test/" None s
    = Some (Ok tt, s)
  /\ scrape_website Sample.not_found Sample.scraper "http://a.test/" None s
    = Some (Ok tt, s).
Proof.
  apply (revisit_is_noop Sample.not_found Sample.scraper 0 "http://a.test/" None).
  simpl. apply elem_of_union_l, elem_of_singleton_2. reflexivity.
Defined.

(** ** C9: a negative depth does nothing *)

(** C9.  For every URL and every negative depth, [scrape_website]
    returns at once and leaves the state as it was: nothing is added to
    the visited set, and no robots.txt read, request, write or recursive
    call is made. *)
Theorem negative_depth_is_noop (w : World) (self : WebScraper) (fuel : nat)
    (url : string) (d : Z) (s : State) :
  d < 0 ->
  scrape_website_fuel w self fuel url (Some d) s = Some (Ok tt, s)
  /\ scrape_website w self url (Some d) s = Some (Ok tt, s).
Proof.
  intros Hd. unfold scrape_website.
  rewrite !scrape_website_fuel_unfold. simpl.
  apply Z.ltb_lt in Hd. rewrite Hd. done.
Qed.

Lemma negative_depth_is_noop_witness :
  scrape_website_fuel (Sample.site Sample.echo Sample.cyclic_links) Sample.scraper 5
    "http://a.test/" (Some (-1)) initial_state = Some (Ok tt, initial_state)
  /\ scrape_website (Sample.site Sample.echo Sample.cyclic_links) Sample.scraper
    "http://a.test/" (Some (-1)) initial_state = Some (Ok tt, initial_state).
Proof.
  apply (negative_depth_is_noop (Sample.site Sample.echo Sample.cyclic_links)
           Sample.scraper 5 "http://a.test/" (-1) initial_state).
  lia.
Defined.

(** ** C1: a URL is marked before it is fetched, and fetched at most once *)

Lemma scrape_website_visits (w : World) (self : WebScraper) (url : string)
    (depth : option Z) (s : State) :
  0 <= effective_depth self depth -> url ∉ visited_urls s ->
  scrape_website w self url depth s =
  visit_page w self
    (scrape_website_fuel w self (Z.to_nat (effective_depth self depth)))
    url (effective_depth self depth)
    (mark_visited url (effective_depth self depth) s).
Proof.
  intros Hd Hnot. unfold scrape_website, fuel_for.
  rewrite scrape_website_fuel_unfold.
  rewrite (bool_decide_eq_false_2 _ Hnot), orb_false_r.
  destruct (effective_depth self depth <? 0) eqn:E; [apply Z.ltb_lt in E; lia|].
  replace (Z.to_nat (effective_depth self depth + 1))
    with (S (Z.to_nat (effective_depth self depth))) by lia.
  reflexivity.
Qed.

(** C1.  For a call at a depth [>= 0] on a URL not yet visited, in a
    state of a run (no URL requested or started twice so far, all of
    them visited): the URL is in the visited set of the state in which
    the work on the page (robots.txt check, request, ...) starts, and
    no network activity has happened in between; the call returns, and
    in its final state no URL has been requested twice and no download
    has been started twice, whatever the links of the pages are. *)
Theorem visited_before_fetch_and_fetched_once (w : World) (self : WebScraper)
    (url : string) (depth : option Z) (s : State) :
  0 <= effective_depth self depth ->
  url ∉ visited_urls s ->
  crawl_inv s ->
  let d := effective_depth self depth in
  let s1 := mark_visited url d s in
  url ∈ visited_urls s1
  /\ network_activity (events s1) = network_activity (events s)
  /\ scrape_website w self url depth s
     = visit_page w self (scrape_website_fuel w self (Z.to_nat d)) url d s1
  /\ exists r s',
       scrape_website w self url depth s = Some (r, s')
       /\ NoDup (gets (events s'))
       /\ NoDup (scraped (events s'))
       /\ (forall u, u ∈ gets (events s') -> u ∈ visited_urls s').
Proof.
  intros Hd Hnot Hinv d s1.
  split; [simpl; apply elem_of_union_l, elem_of_singleton_2; reflexivity|].
  split; [reflexivity|].
  split; [by apply scrape_website_visits|].
  destruct (scrape_website_total w self url depth s) as (r & s' & E).
  exists r, s'. split; [exact E|].
  destruct (scrape_website_fuel_good w self _ _ _ _ _ _ E) as (I & _ & _).
  destruct (I Hinv) as (N1 & N2 & G1 & _). done.
Qed.

Lemma visited_before_fetch_and_fetched_once_witness :
  let w := Sample.site Sample.echo Sample.cyclic_links in
  let d := effective_depth Sample.scraper None in
  let s1 := mark_visited "http://a.test/" d initial_state in
  "http://a.test/" ∈ visited_urls s1
  /\ network_activity (events s1) = network_activity (events initial_state)
  /\ scrape_website w Sample.scraper "http://a.test/" None initial_state
     = visit_page w Sample.scraper
         (scrape_website_fuel w Sample.scraper (Z.to_nat d)) "http://a.test/" d s1
  /\ exists r s',
       scrape_website w Sample.scraper "http://a.test/" None initial_state = Some (r, s')
       /\ NoDup (gets (events s'))
       /\ NoDup (scraped (events s'))
       /\ (forall u, u ∈ gets (events s') -> u ∈ visited_urls s').
Proof.
  apply (visited_before_fetch_and_fetched_once
           (Sample.site Sample.echo Sample.cyclic_links) Sample.scraper
           "http://a.test/" None initial_state).
  - simpl. lia.
  - simpl. apply not_elem_of_empty.
  - apply crawl_inv_initial.
Defined.

(** On two pages that link to each other and to themselves, a run of
    depth 3 requests each page once. *)
Example cyclic_site_requested_once :
  Sample.requested (Sample.site Sample.echo Sample.cyclic_links) Sample.scraper
    "http://a.test/" None
  = Some ["http://a.test/"; "http://a.test/b"].
Proof. vm_compute. reflexivity. Qed.

(** ** C10: an empty body is treated as a failed download *)

(** C10.  When the download of a page succeeds with the empty string,
    [scrape_website] stops there: the final state is the one the
    download left, so nothing is saved (the files are unchanged), the
    parser is not called and no link is followed; the URL stays in the
    visited set. *)
Theorem empty_content_is_skipped (w : World) (self : WebScraper)
    (url : string) (depth : option Z) (s s2 : State) :
  0 <= effective_depth self depth ->
  url ∉ visited_urls s ->
  download_page w self url (mark_visited url (effective_depth self depth) s)
    = (Ok (Some EmptyString), s2) ->
  scrape_website w self url depth s = Some (Ok tt, s2)
  /\ files s2 = files s
  /\ visited_urls s2 = {[url]} ∪ visited_urls s
  /\ url ∈ visited_urls s2
  /\ scraped (events s2) = url :: scraped (events s).
Proof.
  intros Hd Hnot Hdl.
  rewrite scrape_website_visits by done.
  unfold visit_page. rewrite Hdl. simpl.
  destruct (download_page_step _ _ _ _ _ _ Hdl) as [[V E S G] F].
  split; [done|]. split; [by rewrite F|]. split; [by rewrite V|].
  split; [rewrite V; simpl; apply elem_of_union_l, elem_of_singleton_2; reflexivity|].
  by rewrite S.
Qed.

Lemma empty_content_is_skipped_witness :
  let s2 := snd (download_page Sample.empty_pages Sample.scraper "http://a.test/"
                   (mark_visited "http://a.test/" 3 initial_state)) in
  scrape_website Sample.empty_pages Sample.scraper "http://a.test/" None initial_state
    = Some (Ok tt, s2)
  /\ files s2 = files initial_state
  /\ visited_urls s2 = {["http://a.test/"]} ∪ visited_urls initial_state
  /\ "http://a.test/" ∈ visited_urls s2
  /\ scraped (events s2) = "http://a.test/" :: scraped (events initial_state).
Proof.
  apply (empty_content_is_skipped Sample.empty_pages Sample.scraper
           "http://a.test/" None initial_state).
  - simpl. lia.
  - simpl. apply not_elem_of_empty.
  - reflexivity.
Defined.

(** ** C3: which links are followed *)




(** The specification's example: of the four links, the first two pass
    the filter, and a run of depth 1 downloads the page and these two. *)
Example origin_filtering_example :
  let w := Sample.site Sample.echo Sample.origin_links in
  spec_followed w "http://same.example/"
    ["http://same.example/a"; "https://same.example/b";
     "http://other.example/c"; "ftp://same.example/d"]
  = ["http://same.example/a"; "https://same.example/b"]
  /\ Sample.crawled w Sample.scraper "http://same.example/" (Some 1)
     = Some ["http://same.example/"; "http://same.example/a"; "https://same.example/b"].
Proof. vm_compute. split; reflexivity. Qed.


(** ** C5: the file name of a URL *)

(** C5, evaluated on the code.  The first two examples of the
    specification hold; the third does not: [urlparse(url).path] leaves
    the query out, so [https://ex.com/page?x=1] is mapped to
    [ex.com/page.html], not to [ex.com/page_x_1.html], and two URLs that
    differ in their query share a file.  The characters [&] and [=] are
    replaced where the path has them. *)
Theorem get_filename_examples (w : World) (self : WebScraper) :
  get_filename w self "https://ex.com/"
    = Ok (OsPath.join (base_dir self) "ex.com/index.html")
  /\ get_filename w self "https://ex.com/dir/"
    = Ok (OsPath.join (base_dir self) "ex.com/dir/index.html")
  /\ get_filename w self "https://ex.com/page?x=1"
    = Ok (OsPath.join (base_dir self) "ex.com/page.html")
  /\ get_filename w self "https://ex.com/page?x=1"
    <> Ok (OsPath.join (base_dir self) "ex.com/page_x_1.html")
  /\ get_filename w self "https://ex.com/page?x=2"
    = get_filename w self "https://ex.com/page?x=1"
  /\ get_filename w self "https://ex.com:8080/a=b&c"
    = Ok (OsPath.join (base_dir self) "ex.com_8080/a_b_c.html").
Proof.
  assert (Hpage : get_filename w self "https://ex.com/page?x=1"
                  = Ok (OsPath.join (base_dir self) "ex.com/page.html"))
    by (vm_compute; reflexivity).
  repeat split; try (vm_compute; reflexivity).
  rewrite Hpage. intros H. injection H as H.
  unfold OsPath.join in H.
  change (PyStr.startswith "/" "ex.com/page.html") with false in H.
  change (PyStr.startswith "/" "ex.com/page_x_1.html") with false in H.
  cbv iota in H.
  destruct (PyStr.is_empty (base_dir self) || PyStr.endswith_ch "/" (base_dir self));
    apply String.app_inj in H; discriminate.
Qed.

(** The path that [urlparse] returns never has a [?]: [urlsplit] cuts
    the query off at the first one.  The replacement of [?] on line 96
    therefore never applies, and no query reaches a file name. *)
Section ParsedPath.
Import PyStr.

Lemma contains_partition_none c s : partition c s = None -> contains c s = false.
Proof.
  induction s as [|a r IH]; simpl; [done|].
  destruct (ch_eqb a c); [done|]. destruct (partition c r) as [[b t]|]; [done|]. auto.
Qed.

Lemma contains_partition_before c s b t :
  partition c s = Some (b, t) -> contains c b = false.
Proof.
  revert b t. induction s as [|a r IH]; intros b t; simpl; [done|].
  destruct (ch_eqb a c) eqn:E; [by intros [= <- <-]|].
  destruct (partition c r) as [[b' t']|]; [|done].
  intros [= <- <-]. simpl. rewrite E. eauto.
Qed.

Lemma contains_partition_sub c d s b t :
  partition c s = Some (b, t) -> contains d s = false -> contains d b = false.
Proof.
  revert b t. induction s as [|a r IH]; intros b t; simpl; [done|].
  destruct (ch_eqb a c); [by intros [= <- <-]|].
  destruct (partition c r) as [[b' t']|]; [|done].
  intros [= <- <-] [H1 H2]%orb_false_iff. simpl. rewrite H1. eauto.
Qed.

Lemma contains_append c a b :
  contains c (a +:+ b) = contains c a || contains c b.
Proof.
  induction a as [|x a IH]; [done|].
  change (String x a +:+ b) with (String x (a +:+ b)). simpl.
  by rewrite IH, orb_assoc.
Qed.

Lemma contains_take c n s : contains c s = false -> contains c (take n s) = false.
Proof.
  revert s. induction n as [|n IH]; intros [|a r]; simpl; auto.
  intros [H1 H2]%orb_false_iff. rewrite H1. simpl. auto.
Qed.

Lemma contains_drop c n s : contains c s = false -> contains c (drop n s) = false.
Proof.
  revert s. induction n as [|n IH]; intros [|a r]; simpl; auto.
  intros [H1 H2]%orb_false_iff. auto.
Qed.

Lemma replace_ch_absent c n s : contains c s = false -> replace_ch c n s = s.
Proof.
  induction s as [|a r IH]; simpl; [done|].
  intros [H1 H2]%orb_false_iff. rewrite H1. f_equal. auto.
Qed.

Lemma urlsplit_path_no_query hc url scheme0 sr :
  Urllib.urlsplit hc url scheme0 = Ok sr ->
  contains "?" (Urllib.sp_path sr) = false.
Proof.
  unfold Urllib.urlsplit, res_bind. intros H.
  repeat (case_match; simplify_eq/=);
    eauto using contains_partition_before, contains_partition_none.
Qed.

Lemma _splitparams_no_query url :
  contains "?" url = false -> contains "?" (Urllib._splitparams url).1 = false.
Proof.
  intros H. unfold Urllib._splitparams.
  repeat (case_match; simplify_eq/=); try done.
  - rewrite contains_append, contains_take by done. simpl.
    eapply contains_partition_sub; [eassumption|]. by apply contains_drop.
  - eapply contains_partition_sub; eassumption.
  - by apply contains_take.
Qed.

Lemma urlparse_path_no_query (w : World) (url : string) (p : Urllib.ParseResult) :
  urlparse w url = Ok p -> contains "?" (Urllib.path p) = false.
Proof.
  unfold urlparse, Urllib.urlparse, Urllib.urlparse_with, res_bind.
  destruct (Urllib.urlsplit _ url _) as [sr|e] eqn:E; [|done].
  apply urlsplit_path_no_query in E.
  destruct (_ && _).
  - pose proof (_splitparams_no_query _ E) as H.
    destruct (Urllib._splitparams _) as [u prm]. by intros [= <-].
  - by intros [= <-].
Qed.

Lemma query_replacement_is_dead (w : World) (url : string) (p : Urllib.ParseResult) :
  urlparse w url = Ok p ->
  replace_ch "?" "_" (Urllib.path p) = Urllib.path p.
Proof. intros H. by apply replace_ch_absent, (urlparse_path_no_query w url). Qed.

End ParsedPath.

(** ** C4: the errors of a page stay with the page, but for one *)

(** What the handlers do contain.  With a delay that [time.sleep]
    accepts and a [session.get] that raises nothing but
    [requests.RequestException]: no call of [scrape_website], at any
    level, raises.  Whatever [session.get] raises: a failed request is
    logged in [download_page], which then returns [None]; [save_page]
    returns normally whatever the file system does; a parser error is
    logged in the [try] of lines 118-135 and ends the work on the
    page. *)
Lemma contained_errors (w : World) (self : WebScraper) :
  (0 <= delay self -> no_leak w ->
   (forall fuel url depth s r s',
       scrape_website_fuel w self fuel url depth s = Some (r, s') -> r = Ok tt)
   /\ (forall url depth s, exists s', scrape_website w self url depth s = Some (Ok tt, s')))
  /\ (forall url s s1 e,
        0 <= delay self ->
        can_fetch w url s = (Ok true, s1) ->
        session_get w (events (record (Sleep (delay self)) s1)) url = RequestFailed e ->
        download_page w self url s
        = (Ok None,
           record (Log (MsgDownloadFailed url (RequestException (TransportError e))))
             (record (Get url) (record (Sleep (delay self)) s1))))
  /\ (forall url s s1 code body,
        0 <= delay self ->
        can_fetch w url s = (Ok true, s1) ->
        session_get w (events (record (Sleep (delay self)) s1)) url = Response code body ->
        400 <= code < 600 ->
        download_page w self url s
        = (Ok None,
           record (Log (MsgDownloadFailed url (RequestException (HTTPError code))))
             (record (Get url) (record (Sleep (delay self)) s1))))
  /\ (forall url content s, exists s', save_page w self url content s = (Ok tt, s'))
  /\ (forall url content s filename e,
        get_filename w self url = Ok filename ->
        os_makedirs w (events s) (OsPath.dirname filename) = Ok tt ->
        write_file w (events (record (MakeDirs (OsPath.dirname filename)) s))
          filename content = OpenFailed e ->
        save_page w self url content s
        = (Ok tt,
           record (Log (MsgSaveFailed url e))
             (record (WriteFile filename content)
                (record (MakeDirs (OsPath.dirname filename)) s))))
  /\ (forall rec url depth content s e,
        soup_links w content = Exc e ->
        parse_and_follow w rec url depth content s
        = Some (Ok tt, record (Log (MsgParseError url e)) s)).
Proof.
  split.
  { intros Hd Hl. split; [intros; by eapply scrape_website_fuel_quiet|].
    intros url depth s. destruct (scrape_website_total w self url depth s) as (r & s' & E).
    pose proof E as E'. apply scrape_website_fuel_quiet in E'; [|done..]. subst. eauto. }
  split.
  { intros url s s1 e Hd Hc Hg. assert (Hneg : (delay self <? 0) = false) by lia.
    unfold download_page. unfold_py.
    rewrite Hc. simpl. rewrite Hneg. simpl in *. rewrite Hg. reflexivity. }
  split.
  { intros url s s1 code body Hd Hc Hg Hcode.
    assert (Hneg : (delay self <? 0) = false) by lia.
    unfold download_page. unfold_py.
    rewrite Hc. simpl. rewrite Hneg. simpl in *. rewrite Hg. simpl.
    replace ((400 <=? code) && (code <? 600)) with true by lia. reflexivity. }
  split; [apply save_page_returns|].
  split.
  { intros url content s filename e Hf Hm Hw. unfold save_page. unfold_py.
    rewrite Hf. simpl. rewrite Hm. simpl in Hw. rewrite Hw. reflexivity. }
  intros rec url depth content s e Hp. unfold parse_and_follow. by rewrite Hp.
Qed.

(** C4 fails on the code.  [download_page] catches
    [requests.RequestException] only (line 64), and [session.get] also
    raises exceptions that are not of that class: urllib3's
    [LocationParseError] for the host [a..test].  (1) For the seed
    [http://a..test/] the exception leaves [scrape_website]: the call
    raises to its caller.  (2) For a linked page the exception is
    caught one level up, by the [try] of lines 118-135 of the page
    that links to it: it is logged as a parse error of that page, the
    loop over its links is left, and the sibling [/good] is never
    requested.  (3) When the same request fails with a
    [RequestException] instead, the sibling is requested. *)
Theorem download_error_escapes_the_page :
  (scrape_website Sample.bad_host Sample.scraper "http://a..test/" None initial_state
     ≫= fun rs => Some rs.1)
  = Some (Exc (OtherException "LocationParseError"))
  /\ (scrape_website Sample.bad_redirect Sample.scraper "http://a.test/" None initial_state
        ≫= fun rs => Some (rs.1, head (events rs.2), rev (gets (events rs.2))))
     = Some (Ok tt,
             Some (Log (MsgParseError "http://a.test/"
                          (OtherException "LocationParseError"))),
             ["http://a.test/"; "http://a.test/moved"])
  /\ Sample.requested Sample.refused_redirect Sample.scraper "http://a.test/" None
     = Some ["http://a.test/"; "http://a.test/moved"; "http://a.test/good"].
Proof. vm_compute. repeat split; reflexivity. Qed.

(** A negative delay is another way out: [time.sleep] raises
    [ValueError], which [download_page] does not catch. *)
Example negative_delay_raises :
  let self := {| base_dir := "/srv"; max_depth := 0; delay := -1 |} in
  (scrape_website Sample.not_found self "http://a.test/" None initial_state
     ≫= fun rs => Some rs.1)
  = Some (Exc (ValueError "sleep length must be non-negative")).
Proof. vm_compute. reflexivity. Qed.

(** ** C6: robots.txt fails open, when an exception says so *)

(** C6 fails as stated: a failed retrieval of robots.txt is not always
    an exception.  [RobotFileParser.read] absorbs the [HTTPError] of
    [urlopen]: when robots.txt is answered with status 503 (or 401),
    [can_fetch] returns [False] and logs no warning, and
    [download_page] logs that robots.txt disallows the URL and returns
    [None] without requesting the page; with status 404 [can_fetch]
    returns [True], and logs no warning either. *)
Lemma robots_status_counterexample :
  let url := "http://a.test/" in
  let s1 := record (RobotsRead "http://a.test/robots.txt") initial_state in
  RobotParser.retrieval_failed (RobotParser.Status 503) = true
  /\ can_fetch (Sample.robots_status 503) url initial_state = (Ok false, s1)
  /\ download_page (Sample.robots_status 503) Sample.scraper url initial_state
     = (Ok None, record (Log (MsgDisallowed url)) s1)
  /\ gets (events (snd (download_page (Sample.robots_status 503) Sample.scraper url
                          initial_state))) = []
  /\ can_fetch (Sample.robots_status 401) url initial_state = (Ok false, s1)
  /\ can_fetch (Sample.robots_status 404) url initial_state = (Ok true, s1).
Proof. vm_compute. repeat split; reflexivity. Qed.

(** C6, as the code has it.  Whenever the body of the [try] of
    [can_fetch] raises (building the robots.txt URL, retrieving the
    file or parsing it, for any exception [e]), [can_fetch] returns
    [True] and logs a warning; and, provided the delay is one that
    [time.sleep] accepts ([0 <= delay]), [download_page] goes on to
    request the page. *)
Theorem robots_failure_fails_open (w : World) (self : WebScraper) (url : string)
    (s s1 : State) (e : exn) :
  0 <= delay self ->
  check_robots w url s = (Exc e, s1) ->
  can_fetch w url s = (Ok true, record (Log (MsgRobotsError url e)) s1)
  /\ level_of (MsgRobotsError url e) = WARNING
  /\ exists r s2,
       download_page w self url s = (r, s2)
       /\ Get url ∈ events s2
       /\ gets (events s2) = url :: gets (events s).
Proof.
  intros Hd He. assert (Hneg : (delay self <? 0) = false) by lia.
  assert (Hc : can_fetch w url s = (Ok true, record (Log (MsgRobotsError url e)) s1)).
  { unfold can_fetch. unfold_py. by rewrite He. }
  destruct (check_robots_step _ _ _ _ _ He) as (_ & _ & Hg & _ & _).
  split; [exact Hc|]. split; [reflexivity|].
  unfold download_page. unfold_py. rewrite Hc. simpl. rewrite Hneg. simpl.
  destruct (session_get w _ url) as [code body|e'|name]; simpl.
  - destruct ((400 <=? code) && (code <? 600)); simpl;
      (eexists _, _; split; [reflexivity|]; simpl; rewrite Hg; split; [|reflexivity]).
    + apply list_elem_of_further, list_elem_of_here.
    + apply list_elem_of_here.
  - eexists _, _; split; [reflexivity|]. simpl. rewrite Hg. split; [|reflexivity].
    apply list_elem_of_further, list_elem_of_here.
  - eexists _, _; split; [reflexivity|]. simpl. rewrite Hg. split; [|reflexivity].
    apply list_elem_of_here.
Qed.

Lemma robots_failure_fails_open_witness :
  let url := "http://a.test/" in
  let e := OtherException "URLError" in
  let s1 := record (RobotsRead "http://a.test/robots.txt") initial_state in
  can_fetch Sample.no_robots url initial_state
    = (Ok true, record (Log (MsgRobotsError url e)) s1)
  /\ level_of (MsgRobotsError url e) = WARNING
  /\ exists r s2,
       download_page Sample.no_robots Sample.scraper url initial_state = (r, s2)
       /\ Get url ∈ events s2
       /\ gets (events s2) = url :: gets (events initial_state).
Proof.
  apply (robots_failure_fails_open Sample.no_robots Sample.scraper "http://a.test/"
           initial_state
           (record (RobotsRead "http://a.test/robots.txt") initial_state)
           (OtherException "URLError")).
  - simpl. lia.
  - reflexivity.
Defined.

(** ** C7: what a failed fetch returns *)

(** C7 fails as stated: a page answered with status 404, a page that
    cannot be reached and a page that robots.txt forbids are failures of
    the three kinds, and [download_page] returns the same value, [None],
    for each of them. *)
Lemma failure_kinds_counterexample :
  let url := "http://a.test/" in
  fetch_failure_kind Sample.not_found Sample.scraper url initial_state = Some StatusError
  /\ fetch_failure_kind Sample.unreachable Sample.scraper url initial_state
     = Some NetworkError
  /\ fetch_failure_kind Sample.forbidden Sample.scraper url initial_state
     = Some DisallowedByPolicy
  /\ fst (download_page Sample.not_found Sample.scraper url initial_state)
     = fst (download_page Sample.unreachable Sample.scraper url initial_state)
  /\ fst (download_page Sample.unreachable Sample.scraper url initial_state)
     = fst (download_page Sample.forbidden Sample.scraper url initial_state).
Proof. vm_compute. repeat split; reflexivity. Qed.

(** C7, as the code has it.  With a delay that [time.sleep] accepts,
    [download_page] returns [None] for a failure of any kind; the kinds
    differ only in the record logged last: a warning that robots.txt
    disallows the URL, or an error with the exception, which is an
    [HTTPError] for an error status and the exception of the request
    otherwise. *)
Theorem failed_fetch_returns_none (w : World) (self : WebScraper) (url : string)
    (s : State) (k : failure_kind) :
  0 <= delay self ->
  fetch_failure_kind w self url s = Some k ->
  exists s',
    download_page w self url s = (Ok None, s')
    /\ match k with
       | DisallowedByPolicy => head (events s') = Some (Log (MsgDisallowed url))
       | StatusError =>
           exists code,
             head (events s')
             = Some (Log (MsgDownloadFailed url (RequestException (HTTPError code))))
       | NetworkError =>
           exists e,
             head (events s')
             = Some (Log (MsgDownloadFailed url (RequestException (TransportError e))))
       end.
Proof.
  intros Hd Hk. assert (Hneg : (delay self <? 0) = false) by lia.
  unfold fetch_failure_kind in Hk. unfold download_page. unfold_py.
  destruct (can_fetch w url s) as [[[|]|e] s1]; simpl in *; [| |done].
  - rewrite Hneg. simpl.
    destruct (session_get w _ url) as [code body|e|name]; simpl.
    + destruct ((400 <=? code) && (code <? 600)); simplify_eq/=. eauto.
    + simplify_eq/=. eauto.
    + done.
  - simplify_eq/=. eauto.
Qed.

Lemma failed_fetch_returns_none_witness :
  exists s',
    download_page Sample.not_found Sample.scraper "http://a.test/" initial_state
      = (Ok None, s')
    /\ exists code,
         head (events s')
         = Some (Log (MsgDownloadFailed "http://a.test/"
                        (RequestException (HTTPError code)))).
Proof.
  apply (failed_fetch_returns_none Sample.not_found Sample.scraper "http://a.test/"
           initial_state StatusError).
  - simpl. lia.
  - reflexivity.
Defined.

(** ** C8: the visited set compares URLs as strings *)

Lemma follow_links_at_depth_0 (w : World) (self : WebScraper) (fuel : nat)
    (url : string) (hrefs : list string) (s : State) :
  exists r, follow_links w (scrape_website_fuel w self fuel) url 0 hrefs s = Some (r, s).
Proof.
  induction hrefs as [|href rest IH]; simpl; [eauto|].
  destruct (link_target w url href) as [[next_url|]|e]; eauto.
  rewrite scrape_website_fuel_unfold. simpl. exact IH.
Qed.

Lemma scrape_website_depth_0_visited (w : World) (self : WebScraper)
    (url : string) (s : State) (r : res unit) (s' : State) :
  url ∉ visited_urls s ->
  scrape_website w self url (Some 0) s = Some (r, s') ->
  visited_urls s' = {[url]} ∪ visited_urls s.
Proof.
  intros Hnot H. rewrite scrape_website_visits in H by done. simpl in H.
  unfold visit_page in H.
  destruct (download_page w self url _) as [rd s1] eqn:Ed.
  destruct (download_page_step _ _ _ _ _ _ Ed) as [[V1 _ _ _] _]. simpl in V1.
  destruct rd as [[content|]|e]; [| by simplify_eq | by simplify_eq].
  destruct (PyStr.is_empty content); [by simplify_eq|].
  destruct (save_page w self url content s1) as [rs s2] eqn:Es.
  destruct (save_page_step _ _ _ _ _ _ _ Es) as (V2 & _).
  destruct rs as [[]|e]; [|simplify_eq; by rewrite V2].
  unfold parse_and_follow, logging in H.
  destruct (soup_links w content) as [hrefs|e]; [|simplify_eq; simpl; by rewrite V2].
  destruct (follow_links_at_depth_0 w self 0 url hrefs s2) as [rf Ef].
  simpl in Ef. rewrite Ef in H.
  destruct rf as [[]|e]; simplify_eq; simpl; by rewrite V2.
Qed.

(** C8.  Membership in the visited set is equality of strings: for URLs
    [u] and [v] that differ as strings, marking [u] leaves [v]
    unvisited, and so does a whole visit of [u] alone (depth 0).  On a
    page that links to [a] and to [a/], both are downloaded. *)
Theorem visited_set_is_exact (w : World) (self : WebScraper) (u v : string)
    (d : Z) (s : State) :
  u <> v ->
  v ∉ visited_urls s ->
  (v ∉ visited_urls (mark_visited u d s))
  /\ (exists r s', scrape_website w self u (Some 0) s = Some (r, s')
                   /\ v ∉ visited_urls s')
  /\ Sample.crawled (Sample.site Sample.echo Sample.slash_links) Sample.scraper
       "http://ex.com/" (Some 1)
     = Some ["http://ex.com/"; "http://ex.com/a"; "http://ex.com/a/"].
Proof.
  intros Hne Hv.
  assert (Hmark : v ∉ ({[u]} ∪ visited_urls s : gset string)).
  { intros [Hu%elem_of_singleton|Hs]%elem_of_union; [congruence|done]. }
  split; [exact Hmark|]. split; [|vm_compute; reflexivity].
  destruct (scrape_website_total w self u (Some 0) s) as (r & s' & E).
  exists r, s'. split; [exact E|].
  destruct (decide (u ∈ visited_urls s)) as [Hu|Hu].
  - rewrite (scrape_website_visited_noop w self u (Some 0) s Hu) in E.
    by simplify_eq.
  - by rewrite (scrape_website_depth_0_visited _ _ _ _ _ _ Hu E).
Qed.

Lemma visited_set_is_exact_witness :
  let w := Sample.site Sample.echo Sample.slash_links in
  let u := "http://ex.com/a" in
  let v := "http://ex.com/a/" in
  (v ∉ visited_urls (mark_visited u 0 initial_state))
  /\ (exists r s', scrape_website w Sample.scraper u (Some 0) initial_state = Some (r, s')
                   /\ v ∉ visited_urls s')
  /\ Sample.crawled (Sample.site Sample.echo Sample.slash_links) Sample.scraper
       "http://ex.com/" (Some 1)
     = Some ["http://ex.com/"; "http://ex.com/a"; "http://ex.com/a/"].
Proof.
  apply (visited_set_is_exact (Sample.site Sample.echo Sample.slash_links)
           Sample.scraper "http://ex.com/a" "http://ex.com/a/" 0 initial_state).
  - discriminate.
  - simpl. apply not_elem_of_empty.
Defined.

(** ** The end-to-end scenario of the specification

    Seed [http://a.test/] at depth 1, whose page links to [/p1] and to
    [http://b.test/]: two requests, none to [b.test], and two files
    under [a.test/]. *)
Example end_to_end_scenario :
  let w := Sample.site Sample.echo Sample.scenario_links in
  let final := scrape_website w Sample.scraper "http://a.test/" (Some 1) initial_state in
  Sample.requested w Sample.scraper "http://a.test/" (Some 1)
    = Some ["http://a.test/"; "http://a.test/p1"]
  /\ (final ≫= fun rs => files rs.2 !! "/srv/scraped_pages/a.test/index.html")
     = Some "http://a.test/"
  /\ (final ≫= fun rs => files rs.2 !! "/srv/scraped_pages/a.test/p1.html")
     = Some "http://a.test/p1"
  /\ (final ≫= fun rs => Some (size (files rs.2))) = Some 2%nat.
Proof. vm_compute. repeat split; reflexivity. Qed.

(** * Further properties *)

(** ** The effects of a run *)

Section Grows.
Variable Q : event -> Prop.

Lemma grows_refl s : grows Q s s.
Proof. exists []. split; [reflexivity|constructor]. Qed.

Lemma grows_events s s1 s2 :
  events s2 = events s1 -> grows Q s s1 -> grows Q s s2.
Proof. intros E (new & E1 & H). exists new. by rewrite E. Qed.

Lemma grows_record s s1 e : grows Q s s1 -> Q e -> grows Q s (record e s1).
Proof.
  intros (new & E & H) He. exists (e :: new). simpl. rewrite E.
  split; [reflexivity|by constructor].
Qed.

Lemma grows_store s s1 f c : grows Q s s1 -> grows Q s (store_file f c s1).
Proof. by apply grows_events. Qed.

Lemma grows_trans s1 s2 s3 : grows Q s1 s2 -> grows Q s2 s3 -> grows Q s1 s3.
Proof.
  intros (n1 & E1 & H1) (n2 & E2 & H2). exists (n2 ++ n1).
  rewrite E2, E1, app_assoc. split; [reflexivity|]. by apply Forall_app.
Qed.

Lemma grows_start s s' e :
  Q e -> grows Q (record e s) s' -> grows Q s s'.
Proof.
  intros He H. eapply grows_trans; [|exact H].
  apply grows_record; [apply grows_refl|exact He].
Qed.

End Grows.

Lemma grows_mono (Q Q' : event -> Prop) s s' :
  (forall e, Q e -> Q' e) -> grows Q s s' -> grows Q' s s'.
Proof.
  intros HQ (new & E & H). exists new. split; [exact E|].
  eapply Forall_impl; eauto.
Qed.

Ltac run_all :=
  repeat unfold_py; simplify_eq/=;
  repeat (case_match; repeat unfold_py; simplify_eq/=); try done.

Ltac grows_step :=
  repeat first [ apply grows_refl | apply grows_store | apply grows_record ].

Section Trace.
Variable w : World.
Variable self : WebScraper.

Lemma robots_url_of_parsed url p :
  urlparse w url = Ok p ->
  robots_url_of w url
  = Some (Urllib.scheme p +:+ "://" +:+ Urllib.netloc p +:+ "/robots.txt").
Proof. unfold robots_url_of. by intros ->. Qed.

Lemma download_page_own url d s r s' :
  download_page w self url s = (r, s') -> grows (own_event w self url d) s s'.
Proof.
  unfold download_page, can_fetch, check_robots. intros H. run_all.
  all: grows_step; simpl; auto using robots_url_of_parsed.
Qed.

Lemma save_page_own url d content s r s' :
  save_page w self url content s = (r, s') -> grows (own_event w self url d) s s'.
Proof.
  unfold save_page. intros H. run_all.
  all: grows_step; simpl; eauto.
Qed.

Section FromSeed.
Variable seed : string.
Variable d0 : Z.

Lemma own_event_run url d e :
  reached w seed d0 url d -> 0 <= d ->
  own_event w self url d e -> run_event w self seed d0 e.
Proof. intros. exists url, d. auto. Qed.

Lemma follow_links_traced rec url d :
  traced_call w self seed d0 rec ->
  reached w seed d0 url d -> 0 <= d ->
  forall hrefs s r s',
    follow_links w rec url d hrefs s = Some (r, s') ->
    grows (run_event w self seed d0) s s'.
Proof.
  intros Hrec Hreach Hd.
  induction hrefs as [|href rest IH]; intros s r s' H; simpl in H.
  - simplify_eq. apply grows_refl.
  - destruct (link_target w url href) as [[next_url|]|e] eqn:El;
      [| eauto | simplify_eq; apply grows_refl].
    destruct (rec next_url (Some (d - 1)) s) as [[[[]|e] s1]|] eqn:E; [| |done].
    + eapply grows_trans; [|eapply IH; exact H].
      eapply Hrec; [|exact E]. eapply reached_link; eauto.
    + simplify_eq. eapply Hrec; [|exact E]. eapply reached_link; eauto.
Qed.

Lemma visit_page_traced rec url d s r s' :
  traced_call w self seed d0 rec ->
  reached w seed d0 url d -> 0 <= d ->
  visit_page w self rec url d s = Some (r, s') ->
  grows (run_event w self seed d0) s s'.
Proof.
  intros Hrec Hreach Hd H. unfold visit_page in H.
  destruct (download_page w self url s) as [rd s1] eqn:Ed.
  pose proof (grows_mono _ _ _ _ (fun e => own_event_run url d e Hreach Hd)
                (download_page_own _ d _ _ _ Ed)) as G1.
  destruct rd as [[content|]|e]; [| by simplify_eq | by simplify_eq].
  destruct (PyStr.is_empty content); [by simplify_eq|].
  destruct (save_page w self url content s1) as [rs s2] eqn:Es.
  pose proof (grows_mono _ _ _ _ (fun e => own_event_run url d e Hreach Hd)
                (save_page_own _ d _ _ _ _ Es)) as G2.
  pose proof (grows_trans _ _ _ _ G1 G2) as G12.
  destruct rs as [[]|e]; [|by simplify_eq].
  unfold parse_and_follow, logging in H.
  destruct (soup_links w content) as [hrefs|e].
  - destruct (follow_links w rec url d hrefs s2) as [[[[]|e] s3]|] eqn:Ef; [| |done];
      pose proof (follow_links_traced _ _ _ Hrec Hreach Hd _ _ _ _ Ef) as G3;
      simplify_eq.
    + by eapply grows_trans.
    + apply grows_record; [by eapply grows_trans|].
      by apply (own_event_run url d).
  - simplify_eq. apply grows_record; [done|]. by apply (own_event_run url d).
Qed.

Lemma scrape_website_fuel_traced fuel :
  traced_call w self seed d0 (scrape_website_fuel w self fuel).
Proof.
  induction fuel as [|fuel IH]; intros url d s r s' Hreach H;
    rewrite scrape_website_fuel_unfold in H; simpl in H;
    destruct ((d <? 0) || bool_decide (url ∈ visited_urls s)) eqn:Hguard;
    simplify_eq; try apply grows_refl.
  apply orb_false_iff in Hguard as [Hd _]. apply Z.ltb_ge in Hd.
  pose proof (visit_page_traced _ _ _ _ _ _ IH Hreach Hd H) as G.
  destruct G as (new & E & HF). exists (new ++ [Log (MsgScraping d url)]).
  simpl in E. rewrite E, <- app_assoc. split; [reflexivity|].
  apply Forall_app. split; [exact HF|]. constructor; [|constructor].
  apply (own_event_run url d); simpl; auto.
Qed.

Lemma reached_depth_le url d : reached w seed d0 url d -> d <= d0.
Proof. induction 1; lia. Qed.

End FromSeed.

Lemma link_target_on_site url href next_url :
  link_target w url href = Ok (Some next_url) ->
  exists page, urlparse w url = Ok page /\ on_site w (Urllib.netloc page) next_url.
Proof.
  unfold link_target, res_bind, PyStr.mem. simpl.
  destruct (urljoin w url href) as [n|e]; [|done].
  destruct (urlparse w n) as [pn|e] eqn:En; [|done].
  destruct (urlparse w url) as [pc|e] eqn:Ec; [|done].
  rewrite orb_false_r.
  destruct (String.eqb_spec (Urllib.netloc pn) (Urllib.netloc pc)) as [Hn|]; [|done].
  simpl. intros H. exists pc. split; [done|]. exists pn.
  assert (next_url = n) as -> by (destruct (_ || _); congruence).
  split; [done|]. split; [done|].
  destruct (String.eqb_spec (Urllib.scheme pn) "http") as [Hs|Hs]; [by left|].
  destruct (String.eqb_spec (Urllib.scheme pn) "https") as [Hs'|Hs']; [by right|].
  done.
Qed.

Lemma reached_on_site seed d0 url d :
  reached w seed d0 url d ->
  url = seed
  \/ exists page, urlparse w seed = Ok page /\ on_site w (Urllib.netloc page) url.
Proof.
  induction 1 as [|url d href next_url Hreach IH Hd Hl]; [by left|].
  right. destruct (link_target_on_site _ _ _ Hl) as (pc & Ec & Hon).
  destruct IH as [->|(ps & Es & (pu & Eu & Hnl & _))]; [eauto|].
  exists ps. split; [done|]. rewrite Eu in Ec. simplify_eq. by rewrite <- Hnl.
Qed.

Lemma run_event_traced seed depth s :
  exists r s', scrape_website w self seed depth s = Some (r, s')
    /\ grows (run_event w self seed (effective_depth self depth)) s s'.
Proof.
  destruct (scrape_website_total w self seed depth s) as (r & s' & E).
  exists r, s'. split; [exact E|].
  eapply (scrape_website_fuel_traced seed (effective_depth self depth)
            (fuel_for self depth) seed (effective_depth self depth));
    [apply reached_seed|].
  unfold scrape_website in E.
  rewrite scrape_website_fuel_unfold in E. rewrite scrape_website_fuel_unfold.
  exact E.
Qed.

End Trace.

(** ** Facts about strings *)

Section Strings.
Import PyStr.

Lemma append_cons a r b : String a r +:+ b = String a (r +:+ b).
Proof. reflexivity. Qed.

Lemma append_nil_l b : EmptyString +:+ b = b.
Proof. reflexivity. Qed.

Lemma append_nil_r a : a +:+ EmptyString = a.
Proof. induction a as [|x a IH]; [done|]. by rewrite append_cons, IH. Qed.

Lemma append_assoc a b c : (a +:+ b) +:+ c = a +:+ (b +:+ c).
Proof. induction a as [|x a IH]; [done|]. by rewrite !append_cons, IH. Qed.

Lemma is_empty_append a b : is_empty (a +:+ b) = is_empty a && is_empty b.
Proof. by destruct a. Qed.

Lemma is_empty_replace_ch o n s : is_empty (replace_ch o n s) = is_empty s.
Proof. by destruct s. Qed.

Lemma startswith_append p b : startswith p (p +:+ b) = true.
Proof.
  unfold startswith. induction p as [|x p IH]; [by destruct b|].
  rewrite ?append_cons; simpl. by destruct (ascii_dec x x).
Qed.

Lemma startswith_head c x r :
  startswith (String c EmptyString) (String x r) = ch_eqb c x.
Proof.
  unfold startswith, ch_eqb. cbn [String.prefix].
  destruct (ascii_dec c x) as [->|Hne].
  - rewrite Ascii.eqb_refl. by destruct r.
  - symmetry. by apply Ascii.eqb_neq.
Qed.

Lemma ch_eqb_sym a b : ch_eqb a b = ch_eqb b a.
Proof. apply Ascii.eqb_sym. Qed.

Lemma endswith_ch_append c a b :
  is_empty b = false -> endswith_ch c (a +:+ b) = endswith_ch c b.
Proof.
  intros Hb. induction a as [|x a IH]; [done|].
  rewrite append_cons.
  assert (Hne : is_empty (a +:+ b) = false)
    by (by rewrite is_empty_append, Hb, andb_false_r).
  destruct (a +:+ b) as [|y r]; [done|]. exact IH.
Qed.

Lemma endswith_ch_replace c o n s :
  ch_eqb o c = false -> ch_eqb n c = false ->
  endswith_ch c (replace_ch o n s) = endswith_ch c s.
Proof.
  intros Ho Hn. induction s as [|x s IH]; [done|]. simpl. rewrite IH.
  destruct s as [|y s]; simpl; [|done].
  destruct (ch_eqb x o) eqn:E; [|done].
  apply Ascii.eqb_eq in E as ->. by rewrite Ho, Hn.
Qed.

Lemma contains_break_at_fst p c s :
  p c = true -> contains c (break_at p s).1 = false.
Proof.
  intros Hp. induction s as [|x s IH]; simpl; [done|].
  destruct (p x) eqn:Ex; [done|].
  destruct (break_at p s) as [b t]. simpl in *. rewrite IH, orb_false_r.
  destruct (ch_eqb x c) eqn:E; [|done].
  apply Ascii.eqb_eq in E as ->. congruence.
Qed.

Lemma break_at_append p s c t :
  p c = true ->
  break_at p (s +:+ String c t)
  = ((break_at p s).1, (break_at p s).2 +:+ String c t).
Proof.
  intros Hp. induction s as [|x s IH].
  - rewrite append_nil_l. simpl. by rewrite Hp.
  - rewrite ?append_cons; simpl. destruct (p x); [done|].
    rewrite IH. by destruct (break_at p s).
Qed.

Lemma contains_break_at_snd p c s :
  contains c s = false -> contains c (break_at p s).2 = false.
Proof.
  induction s as [|x s IH]; simpl; [done|].
  intros [H1 H2]%orb_false_iff. destruct (p x); simpl; [by rewrite H1|].
  destruct (break_at p s). simpl in *. auto.
Qed.

Lemma contains_lstrip p c s : contains c s = false -> contains c (lstrip p s) = false.
Proof.
  induction s as [|x s IH]; simpl; [done|].
  intros H. pose proof H as [H1 H2]%orb_false_iff.
  destruct (p x); [auto|done].
Qed.

Lemma contains_remove_ch c d s :
  contains c s = false -> contains c (remove_ch d s) = false.
Proof.
  induction s as [|x s IH]; simpl; [done|].
  intros [H1 H2]%orb_false_iff. destruct (ch_eqb x d); simpl; [auto|].
  rewrite H1. auto.
Qed.

Lemma contains_partition_after c d s b t :
  partition c s = Some (b, t) -> contains d s = false -> contains d t = false.
Proof.
  revert b t. induction s as [|x s IH]; intros b t; simpl; [done|].
  destruct (ch_eqb x c).
  - intros [= <- <-] [_ H]%orb_false_iff. done.
  - destruct (partition c s) as [[b' t']|]; [|done].
    intros [= <- <-] [_ H]%orb_false_iff. eauto.
Qed.

Lemma contains_partition_found c s b t :
  partition c s = Some (b, t) -> contains c s = true.
Proof.
  revert b t. induction s as [|x s IH]; intros b t; simpl; [done|].
  destruct (ch_eqb x c); [done|].
  destruct (partition c s) as [[b' t']|]; [|done]. intros _. eauto.
Qed.

Lemma lstrip_append p s c t :
  p c = false -> lstrip p (s +:+ String c t) = lstrip p s +:+ String c t.
Proof.
  intros Hp. induction s as [|x s IH].
  - rewrite !append_nil_l. simpl. by rewrite Hp.
  - rewrite ?append_cons; simpl. destruct (p x); [done|]. by rewrite append_cons.
Qed.

Lemma remove_ch_append d a b :
  remove_ch d (a +:+ b) = remove_ch d a +:+ remove_ch d b.
Proof.
  induction a as [|x a IH]; [done|]. rewrite ?append_cons; simpl.
  destruct (ch_eqb x d); [done|]. by rewrite append_cons, IH.
Qed.

Lemma partition_append_found c s b t x :
  partition c s = Some (b, t) -> partition c (s +:+ x) = Some (b, t +:+ x).
Proof.
  revert b t. induction s as [|y s IH]; intros b t; simpl; [done|].
  rewrite ?append_cons; simpl. destruct (ch_eqb y c); [by intros [= <- <-]|].
  destruct (partition c s) as [[b' t']|]; [|done].
  intros [= <- <-]. by rewrite (IH _ _ eq_refl).
Qed.

Lemma partition_append_here c s t :
  contains c s = false -> partition c (s +:+ String c t) = Some (s, t).
Proof.
  induction s as [|y s IH]; intros H.
  - rewrite append_nil_l. simpl. unfold ch_eqb. by rewrite Ascii.eqb_refl.
  - rewrite ?append_cons; simpl in *. apply orb_false_iff in H as [H1 H2].
    rewrite H1, (IH H2). done.
Qed.

Lemma partition_append_other c d s t :
  contains c s = false -> ch_eqb d c = false ->
  partition c (s +:+ String d t)
  = match partition c t with
    | Some (b, r) => Some (s +:+ String d b, r)
    | None => None
    end.
Proof.
  intros Hs Hd. induction s as [|y s IH].
  - rewrite append_nil_l. simpl. rewrite Hd. by destruct (partition c t) as [[]|].
  - rewrite ?append_cons; simpl in *. apply orb_false_iff in Hs as [H1 H2].
    rewrite H1, (IH H2). by destruct (partition c t) as [[]|].
Qed.

Lemma all_ch_append p a b : all_ch p (a +:+ b) = all_ch p a && all_ch p b.
Proof.
  induction a as [|x a IH]; [done|]. rewrite ?append_cons; simpl.
  by rewrite IH, andb_assoc.
Qed.

Lemma startswith_slashes_append u c t :
  ch_eqb c "/" = false ->
  startswith "//" (u +:+ String c t) = startswith "//" u.
Proof.
  intros Hc. unfold startswith.
  assert (Hne : c <> "/"%char) by (by apply Ascii.eqb_neq).
  destruct u as [|x [|y u]]; rewrite ?append_cons, ?append_nil_l;
    cbn [String.prefix].
  - destruct (ascii_dec "/" c); [congruence|done].
  - destruct (ascii_dec "/" x); [|done]. destruct (ascii_dec "/" c); [congruence|done].
  - destruct (ascii_dec "/" x); [|done]. destruct (ascii_dec "/" y); [|done].
    by destruct u, t.
Qed.

Lemma drop_2_append u x :
  startswith "//" u = true -> drop 2 (u +:+ x) = drop 2 u +:+ x.
Proof.
  unfold startswith. destruct u as [|a [|b u]]; cbn [String.prefix].
  - done.
  - by destruct (ascii_dec "/" a).
  - reflexivity.
Qed.

End Strings.

(** ** File names: [get_filename] *)

Section FileNames.
Import PyStr.
Variable w : World.
Variable self : WebScraper.

Lemma get_filename_shape url p :
  urlparse w url = Ok p ->
  get_filename w self url
  = Ok (OsPath.join (base_dir self)
          (replace_ch ":" "_" (Urllib.netloc p) +:+ file_part (Urllib.path p))).
Proof. intros H. unfold get_filename, res_bind. rewrite H. reflexivity. Qed.

Lemma get_filename_parsed url f :
  get_filename w self url = Ok f -> exists p, urlparse w url = Ok p.
Proof.
  unfold get_filename, res_bind. destruct (urlparse w url) as [p|e]; [eauto|done].
Qed.

Lemma startswith_head_replace c o n s :
  ch_eqb c o = false -> ch_eqb c n = false ->
  startswith (String c EmptyString) (replace_ch o n s)
  = startswith (String c EmptyString) s.
Proof.
  intros Ho Hn. destruct s as [|x s]; [done|]. simpl replace_ch.
  rewrite !startswith_head. destruct (ch_eqb x o) eqn:E; [|done].
  apply Ascii.eqb_eq in E as ->. by rewrite Ho, Hn.
Qed.

Lemma startswith_head_append c a b :
  startswith (String c EmptyString) a = true ->
  startswith (String c EmptyString) (a +:+ b) = true.
Proof.
  destruct a as [|x a]; [done|]. rewrite append_cons. by rewrite !startswith_head.
Qed.

Lemma file_part_not_empty path : is_empty (file_part path) = false.
Proof.
  unfold file_part. rewrite !is_empty_replace_ch.
  destruct (is_empty path || (path =? "/")%string) eqn:E1; [done|].
  apply orb_false_iff in E1 as [E1 _].
  repeat case_match; rewrite ?is_empty_append, ?E1; done.
Qed.

Lemma file_part_not_dir path : endswith_ch "/" (file_part path) = false.
Proof.
  unfold file_part. rewrite !endswith_ch_replace by reflexivity.
  destruct (is_empty path || (path =? "/")%string); [done|].
  destruct (endswith_ch "/" path) eqn:E2;
    [by rewrite endswith_ch_append by reflexivity|].
  destruct (is_empty (OsPath.splitext_ext path));
    [by rewrite endswith_ch_append by reflexivity|done].
Qed.

Lemma file_part_absolute path :
  startswith "/" path = true -> startswith "/" (file_part path) = true.
Proof.
  intros H. unfold file_part. rewrite !startswith_head_replace by reflexivity.
  repeat case_match; try done; by apply startswith_head_append.
Qed.

(** X1.  The name that [get_filename] returns is never empty and never
    ends with a slash: it names a file, not a directory. *)
Theorem get_filename_names_a_file (url f : string) :
  get_filename w self url = Ok f ->
  is_empty f = false /\ endswith_ch "/" f = false.
Proof.
  intros H. destruct (get_filename_parsed _ _ H) as [p Hp].
  rewrite (get_filename_shape _ _ Hp) in H. injection H as <-.
  set (nl := replace_ch ":" "_" (Urllib.netloc p)).
  assert (Hrel : is_empty (nl +:+ file_part (Urllib.path p)) = false)
    by (by rewrite is_empty_append, file_part_not_empty, andb_false_r).
  assert (Hdir : endswith_ch "/" (nl +:+ file_part (Urllib.path p)) = false)
    by (rewrite endswith_ch_append by apply file_part_not_empty;
        apply file_part_not_dir).
  unfold OsPath.join.
  destruct (startswith "/" _); [done|].
  destruct (is_empty (base_dir self) || endswith_ch "/" (base_dir self)).
  - rewrite is_empty_append, Hrel, andb_false_r.
    by rewrite endswith_ch_append.
  - change ("/" +:+ nl +:+ file_part (Urllib.path p))
      with (String "/" (nl +:+ file_part (Urllib.path p))).
    rewrite is_empty_append, andb_false_r.
    rewrite endswith_ch_append by reflexivity.
    destruct (nl +:+ file_part (Urllib.path p)); done.
Qed.

End FileNames.

(** ** What [urlsplit] does with the authority, the query and the fragment *)

Section SplitStages.
Import PyStr.
Variable hc : Urllib.HostChecks.

Lemma urlsplit_staged url scheme0 :
  Urllib.urlsplit hc url scheme0
  = let u := Urllib.remove_unsafe (lstrip Urllib.c0_control_or_space url) in
    match Urllib.split_scheme u with
    | Some (s, rest) => split_after_scheme hc s rest
    | None =>
        split_after_scheme hc
          (Urllib.remove_unsafe (strip Urllib.c0_control_or_space scheme0)) u
    end.
Proof.
  unfold Urllib.urlsplit, split_after_scheme, split_netloc, split_tail. cbv zeta.
  destruct (Urllib.split_scheme _) as [[s rest]|]; reflexivity.
Qed.

Lemma split_netloc_no_slash url nl rest :
  split_netloc hc url = Ok (nl, rest) -> contains "/" nl = false.
Proof.
  unfold split_netloc, Urllib._splitnetloc.
  pose proof (contains_break_at_fst
                (fun a => ch_eqb a "/" || ch_eqb a "?" || ch_eqb a "#") "/"
                (drop 2 url) eq_refl) as Hb.
  destruct (break_at _ (drop 2 url)) as [nl0 rest0]. simpl in Hb.
  destruct (startswith "//" url); [|by intros [= <- <-]].
  destruct (_ || _); [done|].
  destruct (_ && _); [|by intros [= <- <-]].
  destruct (Urllib._check_bracketed_netloc hc nl0) as [[]|e]; [|done].
  by intros [= <- <-].
Qed.

Lemma split_netloc_rest url nl rest c :
  split_netloc hc url = Ok (nl, rest) ->
  contains c url = false -> contains c rest = false.
Proof.
  unfold split_netloc, Urllib._splitnetloc. intros H Hc.
  pose proof (contains_break_at_snd
                (fun a => ch_eqb a "/" || ch_eqb a "?" || ch_eqb a "#") c
                (drop 2 url) (contains_drop c 2 url Hc)) as Hb.
  destruct (break_at _ (drop 2 url)) as [nl0 rest0]. simpl in Hb.
  destruct (startswith "//" url); [|by simplify_eq].
  destruct (_ || _); [done|].
  destruct (_ && _); [|by simplify_eq].
  destruct (Urllib._check_bracketed_netloc hc nl0) as [[]|e]; [|done].
  by simplify_eq/=.
Qed.

Lemma split_netloc_append url c t :
  (ch_eqb c "?" || ch_eqb c "#") = true ->
  split_netloc hc (url +:+ String c t)
  = match split_netloc hc url with
    | Ok (nl, rest) => Ok (nl, rest +:+ String c t)
    | Exc e => Exc e
    end.
Proof.
  intros Hc.
  assert (Hslash : ch_eqb c "/" = false).
  { apply orb_true_iff in Hc as [Hc|Hc]; apply Ascii.eqb_eq in Hc; by subst. }
  unfold split_netloc, Urllib._splitnetloc.
  rewrite (startswith_slashes_append _ _ _ Hslash).
  destruct (startswith "//" url) eqn:Es; [|done].
  rewrite (drop_2_append _ _ Es).
  rewrite break_at_append by (cbv beta; rewrite Hslash; exact Hc).
  destruct (break_at _ (drop 2 url)) as [nl rest]. simpl. clear Hc.
  destruct (_ && _ || _); [done|].
  destruct (_ && _); [|done].
  by destruct (Urllib._check_bracketed_netloc hc nl) as [[]|e].
Qed.

Lemma split_tail_netloc scheme1 nl url sr :
  split_tail hc scheme1 nl url = Ok sr -> Urllib.sp_netloc sr = nl.
Proof.
  unfold split_tail.
  destruct (partition "#" url) as [[u0 f]|];
    [destruct (partition "?" u0) as [[u1 q]|]
    |destruct (partition "?" url) as [[u1 q]|]];
    destruct (Urllib._checknetloc hc nl); simpl; by intros [= <-].
Qed.

Lemma split_tail_plain scheme1 nl v :
  contains "?" v = false -> contains "#" v = false ->
  split_tail hc scheme1 nl v
  = res_bind (Urllib._checknetloc hc nl) (fun _ =>
      Ok {| Urllib.sp_scheme := scheme1; Urllib.sp_netloc := nl;
            Urllib.sp_path := v; Urllib.sp_query := EmptyString;
            Urllib.sp_fragment := EmptyString |}).
Proof.
  intros Hq Hf. unfold split_tail.
  destruct (partition "#" v) as [[u0 f]|] eqn:E1.
  { apply contains_partition_found in E1. congruence. }
  destruct (partition "?" v) as [[u0 q]|] eqn:E2.
  { apply contains_partition_found in E2. congruence. }
  reflexivity.
Qed.

Lemma split_tail_query scheme1 nl v q :
  contains "?" v = false -> contains "#" v = false ->
  same_place (split_tail hc scheme1 nl (v +:+ String "?" q))
             (split_tail hc scheme1 nl v).
Proof.
  intros Hq Hf. rewrite (split_tail_plain _ _ v Hq Hf). unfold split_tail.
  rewrite (partition_append_other "#" "?" v q Hf eq_refl).
  destruct (partition "#" q) as [[q1 f]|];
    rewrite (partition_append_here "?" v _ Hq);
    destruct (Urllib._checknetloc hc nl); simpl; done.
Qed.

Lemma split_tail_fragment scheme1 nl v f :
  contains "#" v = false ->
  same_place (split_tail hc scheme1 nl (v +:+ String "#" f))
             (split_tail hc scheme1 nl v).
Proof.
  intros Hf. unfold split_tail.
  rewrite (partition_append_here "#" v f Hf).
  destruct (partition "#" v) as [[u0 f0]|] eqn:E1.
  { apply contains_partition_found in E1. congruence. }
  destruct (partition "?" v) as [[u1 q]|];
    destruct (Urllib._checknetloc hc nl); simpl; done.
Qed.

Lemma split_after_scheme_netloc scheme1 url sr :
  split_after_scheme hc scheme1 url = Ok sr ->
  contains "/" (Urllib.sp_netloc sr) = false.
Proof.
  unfold split_after_scheme, res_bind.
  destruct (split_netloc hc url) as [[nl rest]|e] eqn:E; [|done].
  intros H. rewrite (split_tail_netloc _ _ _ _ H).
  by eapply split_netloc_no_slash.
Qed.

Lemma split_after_scheme_query scheme1 u q :
  contains "?" u = false -> contains "#" u = false ->
  same_place (split_after_scheme hc scheme1 (u +:+ String "?" q))
             (split_after_scheme hc scheme1 u).
Proof.
  intros Hq Hf. unfold split_after_scheme.
  rewrite split_netloc_append by reflexivity.
  destruct (split_netloc hc u) as [[nl rest]|e] eqn:E; simpl; [|done].
  apply split_tail_query; by eapply split_netloc_rest.
Qed.

Lemma split_after_scheme_fragment scheme1 u f :
  contains "#" u = false ->
  same_place (split_after_scheme hc scheme1 (u +:+ String "#" f))
             (split_after_scheme hc scheme1 u).
Proof.
  intros Hf. unfold split_after_scheme.
  rewrite split_netloc_append by reflexivity.
  destruct (split_netloc hc u) as [[nl rest]|e] eqn:E; simpl; [|done].
  apply split_tail_fragment; by eapply split_netloc_rest.
Qed.

Lemma urlsplit_netloc_no_slash url scheme0 sr :
  Urllib.urlsplit hc url scheme0 = Ok sr ->
  contains "/" (Urllib.sp_netloc sr) = false.
Proof.
  rewrite urlsplit_staged. cbv zeta.
  destruct (Urllib.split_scheme _) as [[s rest]|]; apply split_after_scheme_netloc.
Qed.

(** A tail that starts with [?] or [#] changes neither the scheme nor
    the authority nor the path, when the text before it has no such
    character that could end the path earlier. *)
Lemma remove_unsafe_append a c t :
  Urllib.remove_unsafe (String c t) = String c (Urllib.remove_unsafe t) ->
  Urllib.remove_unsafe (a +:+ String c t)
  = Urllib.remove_unsafe a +:+ String c (Urllib.remove_unsafe t).
Proof.
  unfold Urllib.remove_unsafe. intros H. rewrite !remove_ch_append. by rewrite H.
Qed.

Lemma split_scheme_append a c t :
  ch_eqb c ":" = false -> Urllib.scheme_char c = false ->
  Urllib.split_scheme (a +:+ String c t)
  = match Urllib.split_scheme a with
    | Some (s, rest) => Some (s, rest +:+ String c t)
    | None => None
    end.
Proof.
  intros Hc Hs. unfold Urllib.split_scheme.
  destruct (partition ":" a) as [[pre rest]|] eqn:E.
  - rewrite (partition_append_found _ _ _ _ _ E).
    destruct pre as [|a0 r0]; [done|]. by destruct (_ && _).
  - apply contains_partition_none in E.
    rewrite (partition_append_other _ _ _ _ E Hc).
    destruct (partition ":" t) as [[b r]|]; [|done].
    destruct (a +:+ String c b) as [|a0 r0] eqn:Ea; [done|].
    rewrite <- Ea, all_ch_append. simpl. by rewrite Hs, !andb_false_r.
Qed.

End SplitStages.

Section QueryAndFragment.
Import PyStr.
Variable hc : Urllib.HostChecks.

Lemma contains_cleaned c url :
  contains c url = false ->
  contains c (Urllib.remove_unsafe (lstrip Urllib.c0_control_or_space url)) = false.
Proof.
  intros H. unfold Urllib.remove_unsafe.
  by do 3 apply contains_remove_ch; apply contains_lstrip.
Qed.

Lemma split_scheme_rest c u s rest :
  Urllib.split_scheme u = Some (s, rest) ->
  contains c u = false -> contains c rest = false.
Proof.
  unfold Urllib.split_scheme.
  destruct (partition ":" u) as [[[|a0 r0] t]|] eqn:E; try done.
  destruct (_ && _); [|done]. intros [= _ <-]. by eapply contains_partition_after.
Qed.

Lemma urlsplit_query url q scheme0 :
  contains "?" url = false -> contains "#" url = false ->
  same_place (Urllib.urlsplit hc (url +:+ String "?" q) scheme0)
             (Urllib.urlsplit hc url scheme0).
Proof.
  intros Hq Hf. rewrite !urlsplit_staged. cbv zeta.
  rewrite lstrip_append by reflexivity.
  rewrite remove_unsafe_append by reflexivity.
  apply contains_cleaned in Hq, Hf.
  rewrite split_scheme_append by reflexivity.
  destruct (Urllib.split_scheme _) as [[s rest]|] eqn:E.
  - apply split_after_scheme_query; by eapply split_scheme_rest.
  - by apply split_after_scheme_query.
Qed.

Lemma urlsplit_fragment url f scheme0 :
  contains "#" url = false ->
  same_place (Urllib.urlsplit hc (url +:+ String "#" f) scheme0)
             (Urllib.urlsplit hc url scheme0).
Proof.
  intros Hf. rewrite !urlsplit_staged. cbv zeta.
  rewrite lstrip_append by reflexivity.
  rewrite remove_unsafe_append by reflexivity.
  apply contains_cleaned in Hf.
  rewrite split_scheme_append by reflexivity.
  destruct (Urllib.split_scheme _) as [[s rest]|] eqn:E.
  - apply split_after_scheme_fragment; by eapply split_scheme_rest.
  - by apply split_after_scheme_fragment.
Qed.

Lemma urlparse_same_place u1 u2 :
  same_place (Urllib.urlsplit hc u1 EmptyString) (Urllib.urlsplit hc u2 EmptyString) ->
  match Urllib.urlparse hc u1, Urllib.urlparse hc u2 with
  | Ok a, Ok b => Urllib.netloc a = Urllib.netloc b /\ Urllib.path a = Urllib.path b
  | Exc e1, Exc e2 => e1 = e2
  | _, _ => False
  end.
Proof.
  unfold Urllib.urlparse, Urllib.urlparse_with, res_bind, same_place.
  destruct (Urllib.urlsplit hc u1 _) as [a|e1], (Urllib.urlsplit hc u2 _) as [b|e2];
    try done.
  intros (Hs & Hn & Hp). rewrite Hs, Hp.
  destruct (_ && _); [|done]. by destruct (Urllib._splitparams _).
Qed.

End QueryAndFragment.

Section MoreFileNames.
Import PyStr.
Variable w : World.
Variable self : WebScraper.

Lemma get_filename_same_place u1 u2 :
  same_place (Urllib.urlsplit (host_checks w) u1 EmptyString)
             (Urllib.urlsplit (host_checks w) u2 EmptyString) ->
  get_filename w self u1 = get_filename w self u2.
Proof.
  intros H. apply urlparse_same_place in H.
  unfold get_filename, urlparse, res_bind.
  destruct (Urllib.urlparse _ u1) as [a|e1], (Urllib.urlparse _ u2) as [b|e2];
    try done; [|by subst].
  destruct H as [-> ->]. reflexivity.
Qed.

(** X2.  The query of a URL has no part in its file name: URLs that
    differ only in the query are saved to the same file. *)
Theorem get_filename_ignores_query (url q : string) :
  contains "?" url = false -> contains "#" url = false ->
  get_filename w self (url +:+ "?" +:+ q) = get_filename w self url.
Proof. intros Hq Hf. by apply get_filename_same_place, urlsplit_query. Qed.

(** X3.  The fragment of a URL has no part in its file name either. *)
Theorem get_filename_ignores_fragment (url f : string) :
  contains "#" url = false ->
  get_filename w self (url +:+ "#" +:+ f) = get_filename w self url.
Proof. intros Hf. by apply get_filename_same_place, urlsplit_fragment. Qed.

End MoreFileNames.

Section Rooted.
Import PyStr.
Variable hc : Urllib.HostChecks.

(** Empty, or starting with a slash. *)
Lemma break_at_snd_head p s :
  (break_at p s).2 = EmptyString
  \/ exists c r, (break_at p s).2 = String c r /\ p c = true.
Proof.
  induction s as [|x s IH]; simpl; [by left|].
  destruct (p x) eqn:E; [right; eauto|].
  by destruct (break_at p s).
Qed.

Lemma partition_head c x r b t :
  partition c (String x r) = Some (b, t) -> ch_eqb x c = false ->
  exists b', b = String x b'.
Proof.
  simpl. intros H Hx. rewrite Hx in H. revert H. destruct (partition c r) as [[b' t']|]; [|done].
  intros [= <- <-]. eauto.
Qed.

Lemma partition_at_head c r : partition c (String c r) = Some (EmptyString, r).
Proof. simpl. unfold ch_eqb. by rewrite Ascii.eqb_refl. Qed.

Lemma split_tail_rooted scheme1 nl rest sr :
  rest = EmptyString
  \/ (exists c r, rest = String c r
                  /\ (ch_eqb c "/" || ch_eqb c "?" || ch_eqb c "#") = true) ->
  split_tail hc scheme1 nl rest = Ok sr -> rooted (Urllib.sp_path sr).
Proof.
  unfold split_tail, rooted.
  intros [->|(c & r & -> & Hc)].
  { simpl. destruct (Urllib._checknetloc hc nl); simpl; intros [= <-]; by left. }
  apply orb_true_iff in Hc as [Hc|Hc]; [apply orb_true_iff in Hc as [Hc|Hc]|];
    apply Ascii.eqb_eq in Hc as ->.
  - destruct (partition "#" (String "/" r)) as [[u0 f]|] eqn:E1.
    + destruct (partition_head _ _ _ _ _ E1 eq_refl) as [b' ->].
      destruct (partition "?" (String "/" b')) as [[u1 q]|] eqn:E2.
      * destruct (partition_head _ _ _ _ _ E2 eq_refl) as [b'' ->].
        destruct (Urllib._checknetloc hc nl); simpl; intros [= <-]; eauto.
      * destruct (Urllib._checknetloc hc nl); simpl; intros [= <-]; eauto.
    + destruct (partition "?" (String "/" r)) as [[u1 q]|] eqn:E2.
      * destruct (partition_head _ _ _ _ _ E2 eq_refl) as [b'' ->].
        destruct (Urllib._checknetloc hc nl); simpl; intros [= <-]; eauto.
      * destruct (Urllib._checknetloc hc nl); simpl; intros [= <-]; eauto.
  - destruct (partition "#" (String "?" r)) as [[u0 f]|] eqn:E1.
    + destruct (partition_head _ _ _ _ _ E1 eq_refl) as [b' ->].
      rewrite partition_at_head.
      destruct (Urllib._checknetloc hc nl); simpl; intros [= <-]; eauto.
    + rewrite partition_at_head.
      destruct (Urllib._checknetloc hc nl); simpl; intros [= <-]; eauto.
  - rewrite partition_at_head. simpl.
    destruct (Urllib._checknetloc hc nl); simpl; intros [= <-]; eauto.
Qed.

Lemma split_after_scheme_rooted scheme1 u sr :
  split_after_scheme hc scheme1 u = Ok sr ->
  Urllib.sp_netloc sr <> EmptyString -> rooted (Urllib.sp_path sr).
Proof.
  unfold split_after_scheme, res_bind.
  destruct (split_netloc hc u) as [[nl rest]|e] eqn:E; [|done].
  intros H Hnl. rewrite (split_tail_netloc _ _ _ _ _ H) in Hnl.
  eapply split_tail_rooted; [|exact H].
  unfold split_netloc, Urllib._splitnetloc in E.
  pose proof (break_at_snd_head
                (fun a => ch_eqb a "/" || ch_eqb a "?" || ch_eqb a "#")
                (drop 2 u)) as Hb.
  destruct (break_at _ (drop 2 u)) as [nl0 rest0]. simpl in Hb.
  destruct (startswith "//" u); [|by simplify_eq].
  destruct (_ && _ || _); [done|].
  destruct (_ && _); [|by simplify_eq].
  destruct (Urllib._check_bracketed_netloc hc nl0) as [[]|e]; [|done].
  by simplify_eq/=.
Qed.

Lemma _splitparams_rooted r :
  exists r', (Urllib._splitparams (String "/" r)).1 = String "/" r'.
Proof.
  unfold Urllib._splitparams.
  change (contains "/" (String "/" r)) with true. cbv iota.
  destruct (Z.to_nat (rfind "/" (String "/" r))) as [|n].
  - change (drop 0 (String "/" r)) with (String "/" r).
    change (take 0 (String "/" r)) with EmptyString.
    destruct (partition ";" (String "/" r)) as [[b t]|] eqn:E; [|simpl; eauto].
    destruct (partition_head _ _ _ _ _ E eq_refl) as [b' ->]. simpl. eauto.
  - change (take (S n) (String "/" r)) with (String "/" (take n r)).
    destruct (partition ";" _) as [[b t]|]; simpl; eauto.
Qed.

Lemma urlparse_rooted url p :
  Urllib.urlparse hc url = Ok p ->
  Urllib.netloc p <> EmptyString -> rooted (Urllib.path p).
Proof.
  unfold Urllib.urlparse, Urllib.urlparse_with, res_bind.
  destruct (Urllib.urlsplit hc url EmptyString) as [sr|e] eqn:E; [|done].
  assert (Hr : Urllib.sp_netloc sr <> EmptyString -> rooted (Urllib.sp_path sr)).
  { rewrite urlsplit_staged in E. cbv zeta in E.
    destruct (Urllib.split_scheme _) as [[s rest]|];
      by eapply split_after_scheme_rooted. }
  destruct (_ && _) eqn:Ec.
  - destruct (Urllib._splitparams (Urllib.sp_path sr)) as [u prm] eqn:Es.
    intros [= <-]. simpl. intros Hnl.
    destruct (Hr Hnl) as [Hp|[r Hp]]; rewrite Hp in *.
    + apply andb_true_iff in Ec as [_ Ec]. done.
    + destruct (_splitparams_rooted r) as [r' Hr']. rewrite Es in Hr'. simpl in Hr'.
      right. eauto.
  - intros [= <-]. simpl. auto.
Qed.

Lemma urlparse_netloc_no_slash url p :
  Urllib.urlparse hc url = Ok p -> contains "/" (Urllib.netloc p) = false.
Proof.
  unfold Urllib.urlparse, Urllib.urlparse_with, res_bind.
  destruct (Urllib.urlsplit hc url EmptyString) as [sr|e] eqn:E; [|done].
  apply urlsplit_netloc_no_slash in E.
  destruct (_ && _); [destruct (Urllib._splitparams _)|]; by intros [= <-].
Qed.

End Rooted.

Section Directories.
Import PyStr.
Variable w : World.
Variable self : WebScraper.

Lemma startswith_slash_inv s :
  startswith "/" s = true -> exists r, s = String "/" r.
Proof.
  destruct s as [|x r]; [done|]. rewrite startswith_head, ch_eqb_sym.
  intros ->%Ascii.eqb_eq. eauto.
Qed.

Lemma file_part_rooted path : rooted path -> exists r, file_part path = String "/" r.
Proof.
  intros [->|[r ->]]; [exists "index.html"%string; vm_compute; reflexivity|].
  apply startswith_slash_inv, file_part_absolute. by rewrite startswith_head.
Qed.

Lemma sanitized_netloc_head nl :
  nl <> EmptyString -> contains "/" nl = false ->
  forall rest, startswith "/" (replace_ch ":" "_" nl +:+ rest) = false.
Proof.
  destruct nl as [|x nl]; [done|]. intros _ [Hx _]%orb_false_iff rest.
  simpl replace_ch. rewrite append_cons, startswith_head, ch_eqb_sym.
  destruct (ch_eqb x ":"); [done|exact Hx].
Qed.

Lemma get_filename_in_directory (url : string) (p : Urllib.ParseResult) :
  urlparse w url = Ok p ->
  Urllib.netloc p <> EmptyString ->
  exists rest,
    get_filename w self url
    = Ok (OsPath.join (base_dir self) (replace_ch ":" "_" (Urllib.netloc p))
          +:+ String "/" rest).
Proof.
  intros Hp Hnl. rewrite (get_filename_shape _ _ _ _ Hp).
  destruct (file_part_rooted (Urllib.path p)) as [rest ->];
    [by eapply urlparse_rooted|].
  exists rest. f_equal. unfold OsPath.join.
  pose proof (sanitized_netloc_head _ Hnl (urlparse_netloc_no_slash _ _ _ Hp)) as Hh.
  rewrite Hh. specialize (Hh EmptyString). rewrite append_nil_r in Hh. rewrite Hh.
  destruct (_ || _); by rewrite ?append_assoc.
Qed.

(** X4.  For a URL with an authority, the file lies in the directory made
    of [base_dir] and the authority with [:] replaced by [_]. *)
Theorem get_filename_inside_site_directory (url : string) (p : Urllib.ParseResult) :
  urlparse w url = Ok p ->
  Urllib.netloc p <> EmptyString ->
  exists rest,
    get_filename w self url
    = Ok (OsPath.join (base_dir self) (replace_ch ":" "_" (Urllib.netloc p))
          +:+ String "/" rest).
Proof. apply get_filename_in_directory. Qed.

(** X5.  For a URL without authority and with an absolute path,
    [os.path.join] drops [base_dir]: the file name is the sanitized
    path itself. *)
Theorem get_filename_without_authority (url : string) (p : Urllib.ParseResult) :
  urlparse w url = Ok p ->
  Urllib.netloc p = EmptyString ->
  startswith "/" (Urllib.path p) = true ->
  get_filename w self url = Ok (file_part (Urllib.path p))
  /\ startswith "/" (file_part (Urllib.path p)) = true.
Proof.
  intros Hp Hnl Habs. rewrite (get_filename_shape _ _ _ _ Hp), Hnl.
  pose proof (file_part_absolute _ Habs) as Hf. split; [|exact Hf].
  simpl replace_ch. rewrite append_nil_l. unfold OsPath.join. by rewrite Hf.
Qed.

End Directories.

(** ** Invariants of a run *)

Section RunInvariant.
Variable w : World.
Variable self : WebScraper.
Variable P : State -> Prop.
Hypothesis P_mark : forall url d s, P s -> P (mark_visited url d s).
Hypothesis P_download : forall url s r s', download_page w self url s = (r, s') -> P s -> P s'.
Hypothesis P_save :
  forall url content s r s', save_page w self url content s = (r, s') -> P s -> P s'.
Hypothesis P_log : forall url e s, P s -> P (record (Log (MsgParseError url e)) s).

Lemma follow_links_keeps rec url d :
  (forall u k s r s', rec u k s = Some (r, s') -> P s -> P s') ->
  forall hrefs s r s',
    follow_links w rec url d hrefs s = Some (r, s') -> P s -> P s'.
Proof.
  intros Hrec. induction hrefs as [|href rest IH]; intros s r s' H HP; simpl in H.
  - by simplify_eq.
  - destruct (link_target w url href) as [[next_url|]|e]; [| eauto | by simplify_eq].
    destruct (rec next_url (Some (d - 1)) s) as [[[[]|e] s1]|] eqn:E; [| |done].
    + eapply IH; [exact H|]. eauto.
    + simplify_eq. eauto.
Qed.

Lemma visit_page_keeps rec url d s r s' :
  (forall u k s r s', rec u k s = Some (r, s') -> P s -> P s') ->
  visit_page w self rec url d s = Some (r, s') -> P s -> P s'.
Proof.
  intros Hrec H HP. unfold visit_page in H.
  destruct (download_page w self url s) as [rd s1] eqn:Ed.
  pose proof (P_download _ _ _ _ Ed HP) as HP1.
  destruct rd as [[content|]|e]; [| by simplify_eq | by simplify_eq].
  destruct (PyStr.is_empty content); [by simplify_eq|].
  destruct (save_page w self url content s1) as [rs s2] eqn:Es.
  pose proof (P_save _ _ _ _ _ Es HP1) as HP2.
  destruct rs as [[]|e]; [|by simplify_eq].
  unfold parse_and_follow, logging in H.
  destruct (soup_links w content) as [hrefs|e]; [|simplify_eq; by apply P_log].
  destruct (follow_links w rec url d hrefs s2) as [[[[]|e] s3]|] eqn:Ef; [| |done];
    pose proof (follow_links_keeps _ _ _ Hrec _ _ _ _ Ef HP2); simplify_eq;
    [done|by apply P_log].
Qed.

Lemma scrape_website_fuel_keeps fuel :
  forall url depth s r s',
    scrape_website_fuel w self fuel url depth s = Some (r, s') -> P s -> P s'.
Proof.
  induction fuel as [|fuel IH]; intros url depth s r s' H HP;
    rewrite scrape_website_fuel_unfold in H;
    destruct (_ || _); simplify_eq; try done.
  eapply visit_page_keeps; [exact IH|exact H|]. by apply P_mark.
Qed.

Lemma scrape_website_keeps url depth s :
  P s -> exists r s', scrape_website w self url depth s = Some (r, s') /\ P s'.
Proof.
  intros HP. destruct (scrape_website_total w self url depth s) as (r & s' & E).
  exists r, s'. split; [exact E|]. by eapply scrape_website_fuel_keeps.
Qed.

End RunInvariant.

(** ** What a run does and does not do *)

Section Run.
Variable w : World.
Variable self : WebScraper.

(** X6.  The depth budget: every download of a run is logged with a depth
    between 0 and the depth of the first call. *)
Theorem run_stays_within_depth (seed : string) (depth : option Z) (s : State) :
  exists r s' new,
    scrape_website w self seed depth s = Some (r, s')
    /\ events s' = new ++ events s
    /\ forall k u, Log (MsgScraping k u) ∈ new -> 0 <= k <= effective_depth self depth.
Proof.
  destruct (run_event_traced w self seed depth s) as (r & s' & E & new & En & HF).
  exists r, s', new. split; [exact E|]. split; [exact En|].
  intros k u Hin. rewrite Forall_forall in HF.
  destruct (HF _ Hin) as (url & d & Hreach & Hd & [-> _]).
  split; [exact Hd|]. by eapply reached_depth_le.
Qed.

(** X7.  The crawl stays on the site of the first URL: every URL that is
    requested, and every URL whose download is started, is the first
    URL itself or has the authority of the first URL and the scheme
    http or https. *)
Theorem run_stays_on_site (seed : string) (depth : option Z) (s : State) :
  exists r s' new,
    scrape_website w self seed depth s = Some (r, s')
    /\ events s' = new ++ events s
    /\ forall u, Get u ∈ new \/ (exists k, Log (MsgScraping k u) ∈ new) ->
         u = seed
         \/ exists page, urlparse w seed = Ok page
                         /\ on_site w (Urllib.netloc page) u.
Proof.
  destruct (run_event_traced w self seed depth s) as (r & s' & E & new & En & HF).
  exists r, s', new. split; [exact E|]. split; [exact En|].
  rewrite Forall_forall in HF.
  intros u [Hin|[k Hin]]; destruct (HF _ Hin) as (url & d & Hreach & Hd & Hown);
    simpl in Hown.
  - subst. by eapply reached_on_site.
  - destruct Hown as [_ ->]. by eapply reached_on_site.
Qed.

(** X8.  When the first URL has an authority, every file written in the
    run lies in the directory made of [base_dir] and that authority
    (with [:] replaced by [_]). *)
Theorem run_writes_inside_site_directory (seed : string) (depth : option Z)
    (s : State) (page : Urllib.ParseResult) :
  urlparse w seed = Ok page ->
  Urllib.netloc page <> EmptyString ->
  exists r s' new,
    scrape_website w self seed depth s = Some (r, s')
    /\ events s' = new ++ events s
    /\ forall f c, WriteFile f c ∈ new ->
         exists rest,
           f = OsPath.join (base_dir self)
                 (PyStr.replace_ch ":" "_" (Urllib.netloc page))
               +:+ String "/" rest.
Proof.
  intros Hpage Hnl.
  destruct (run_event_traced w self seed depth s) as (r & s' & E & new & En & HF).
  exists r, s', new. split; [exact E|]. split; [exact En|].
  rewrite Forall_forall in HF. intros f c Hin.
  destruct (HF _ Hin) as (url & d & Hreach & Hd & Hown). simpl in Hown.
  assert (Hp : exists p, urlparse w url = Ok p /\ Urllib.netloc p = Urllib.netloc page).
  { destruct (reached_on_site _ _ _ _ _ Hreach) as [->|(ps & Es & (pu & Eu & Hn & _))].
    - eauto.
    - rewrite Hpage in Es. simplify_eq. eauto. }
  destruct Hp as (p & Hp & Hn).
  destruct (get_filename_in_directory w self url p Hp) as [rest Hrest];
    [by rewrite Hn|].
  rewrite Hrest in Hown. exists rest. rewrite <- Hn. congruence.
Qed.

End Run.

Section Politeness.
Variable w : World.
Variable self : WebScraper.

Lemma download_page_polite url s r s' :
  download_page w self url s = (r, s') ->
  polite w self (events s) -> polite w self (events s').
Proof.
  unfold download_page, can_fetch, check_robots. intros H HP. run_all.
  all: simpl; repeat split; auto using robots_url_of_parsed.
  all: eexists; split; [eassumption|]; by destruct (_ USER_AGENT url).
Qed.

Lemma save_page_polite url content s r s' :
  save_page w self url content s = (r, s') ->
  polite w self (events s) -> polite w self (events s').
Proof. unfold save_page. intros H HP. run_all. Qed.

(** X9.  Politeness: in a run, every request is made right after a sleep
    of [delay] seconds, and that sleep right after the robots.txt of
    the URL's own scheme and authority was read with rules that allow
    the URL for the scraper's user agent, or right after the warning
    that the robots.txt check of that URL failed. *)
Theorem run_is_polite (url : string) (depth : option Z) (s : State) :
  polite w self (events s) ->
  exists r s', scrape_website w self url depth s = Some (r, s')
               /\ polite w self (events s').
Proof.
  apply (scrape_website_keeps w self (fun s => polite w self (events s))).
  - auto.
  - apply download_page_polite.
  - apply save_page_polite.
  - auto.
Qed.

(** X10.  The visited set is exactly the set of URLs whose download was
    started. *)
Theorem visited_are_the_started_downloads (url : string) (depth : option Z)
    (s : State) :
  (forall u, u ∈ visited_urls s <-> u ∈ scraped (events s)) ->
  exists r s', scrape_website w self url depth s = Some (r, s')
               /\ forall u, u ∈ visited_urls s' <-> u ∈ scraped (events s').
Proof.
  apply (scrape_website_keeps w self
           (fun s => forall u, u ∈ visited_urls s <-> u ∈ scraped (events s))).
  - intros u d s0 HP v. simpl. rewrite elem_of_union, elem_of_singleton, elem_of_cons.
    by rewrite HP.
  - intros u s0 r s1 H HP v.
    destruct (download_page_step _ _ _ _ _ _ H) as [[V _ S _] _]. by rewrite V, S.
  - intros u c s0 r s1 H HP v.
    destruct (save_page_step _ _ _ _ _ _ _ H) as (V & _ & S & _). by rewrite V, S.
  - auto.
Qed.

Lemma save_page_files url content s r s' :
  save_page w self url content s = (r, s') ->
  files s' = files s
  \/ exists f c, get_filename w self url = Ok f /\ files s' = <[f := c]> (files s).
Proof. unfold save_page. intros H. run_all; eauto. Qed.

(** X11.  A run only adds: no URL leaves the visited set, no recorded
    effect is removed, and no file disappears. *)
Theorem run_only_adds (url : string) (depth : option Z) (s : State) :
  exists r s',
    scrape_website w self url depth s = Some (r, s')
    /\ visited_urls s ⊆ visited_urls s'
    /\ events s `suffix_of` events s'
    /\ dom (files s) ⊆ dom (files s').
Proof.
  destruct (scrape_website_keeps w self (fun s1 => dom (files s) ⊆ dom (files s1)))
    with (url := url) (depth := depth) (s := s) as (r & s' & E & Hf); try done.
  - intros u s0 r s1 H HP.
    destruct (download_page_step _ _ _ _ _ _ H) as [_ F]. by rewrite F.
  - intros u c s0 r s1 H HP.
    destruct (save_page_files _ _ _ _ _ H) as [->|(f & c' & _ & ->)]; [done|].
    rewrite dom_insert_L. set_solver.
  - exists r, s'. split; [exact E|].
    destruct (scrape_website_fuel_good w self _ _ _ _ _ _ E) as (_ & V & Ev). done.
Qed.

(** X12.  At depth 0 only the page itself is downloaded: its links are
    looked at, but none is followed. *)
Theorem depth_0_downloads_one_page (url : string) (s : State) :
  url ∉ visited_urls s ->
  exists r s',
    scrape_website w self url (Some 0) s = Some (r, s')
    /\ visited_urls s' = {[url]} ∪ visited_urls s
    /\ scraped (events s') = url :: scraped (events s)
    /\ (gets (events s') = gets (events s)
        \/ gets (events s') = url :: gets (events s)).
Proof.
  intros Hnot. destruct (scrape_website_total w self url (Some 0) s) as (r & s' & E).
  exists r, s'. split; [exact E|].
  rewrite scrape_website_visits in E by done. simpl in E. unfold visit_page in E.
  destruct (download_page w self url _) as [rd s1] eqn:Ed.
  destruct (download_page_step _ _ _ _ _ _ Ed) as [[V1 _ S1 G1] _].
  simpl in V1, S1, G1.
  destruct rd as [[content|]|e]; [| by simplify_eq | by simplify_eq].
  destruct (PyStr.is_empty content); [by simplify_eq|].
  destruct (save_page w self url content s1) as [rs s2] eqn:Es.
  destruct (save_page_step _ _ _ _ _ _ _ Es) as (V2 & _ & S2 & G2).
  rewrite <- V2, <- S2, <- G2 in *.
  destruct rs as [[]|e]; [|by simplify_eq].
  unfold parse_and_follow, logging in E.
  destruct (soup_links w content) as [hrefs|e]; [|by simplify_eq].
  destruct (follow_links_at_depth_0 w self 0 url hrefs s2) as [rf Ef].
  simpl in Ef. rewrite Ef in E.
  destruct rf as [[]|e]; by simplify_eq.
Qed.

End Politeness.

(** ** [download_page] and [save_page] on their own *)

Section LeafResults.
Variable w : World.
Variable self : WebScraper.


(** X14.  [save_page] never raises and leaves the visited set alone.
    Either it stores the content under the name [get_filename] gives
    and logs the save; or it logs an error, and then either every
    file is as it was (no file name, [os.makedirs] or [open] failed)
    or the one file of that name holds what the failed write left of
    it ([open] has truncated it) and every other file is as it
    was. *)
Theorem save_page_stores_or_reports (url content : string) (s : State) :
  exists s',
    save_page w self url content s = (Ok tt, s')
    /\ visited_urls s' = visited_urls s
    /\ ((exists f, get_filename w self url = Ok f
                   /\ files s' = <[f := content]> (files s)
                   /\ head (events s') = Some (Log (MsgSaved url f)))
        \/ (exists e, head (events s') = Some (Log (MsgSaveFailed url e))
                      /\ (files s' = files s
                          \/ exists f remains,
                               get_filename w self url = Ok f
                               /\ WriteFile f content ∈ events s'
                               /\ files s' = <[f := remains]> (files s)))).
Proof.
  unfold save_page. unfold_py.
  destruct (get_filename w self url) as [f|e]; simpl; [|eauto 10].
  destruct (os_makedirs w (events s) (OsPath.dirname f)) as [[]|e]; simpl; [|eauto 10].
  destruct (write_file w _ f content) as [|e|e remains]; simpl; [eauto 10..|].
  eexists. split; [reflexivity|]. split; [reflexivity|]. right. exists e.
  split; [reflexivity|]. right. exists f, remains.
  split; [reflexivity|]. split; [|reflexivity].
  apply list_elem_of_further, list_elem_of_here.
Qed.

(** X15.  Writing and reading back: when the URL has a file name and the
    file system accepts the directory and the write, the file holds
    the content afterwards, whatever it held before, and every other
    file is untouched. *)
Theorem save_page_round_trip (url content : string) (s : State) (f : string) :
  get_filename w self url = Ok f ->
  os_makedirs w (events s) (OsPath.dirname f) = Ok tt ->
  write_file w (events (record (MakeDirs (OsPath.dirname f)) s)) f content = Written ->
  exists s',
    save_page w self url content s = (Ok tt, s')
    /\ files s' !! f = Some content
    /\ forall g, g <> f -> files s' !! g = files s !! g.
Proof.
  intros Hf Hm Hw. unfold save_page. unfold_py.
  rewrite Hf. simpl. rewrite Hm. simpl in *. rewrite Hw.
  eexists. split; [reflexivity|]. simpl. split.
  - apply lookup_insert_eq.
  - intros g Hg. by apply lookup_insert_ne.
Qed.

End LeafResults.

(** ** [__init__] and [main] *)

Section Program.
Import PyStr.

Lemma slashes_head n r : exists r', PosixPath.slashes (S n) +:+ r = String "/" r'.
Proof. simpl. eauto. Qed.

Lemma normpath_absolute path :
  startswith "/" path = true -> startswith "/" (PosixPath.normpath path) = true.
Proof.
  intros H. unfold PosixPath.normpath. rewrite H.
  destruct (is_empty path) eqn:E; [by destruct path|].
  cbv zeta.
  destruct (startswith "//" path && negb (startswith "///" path)).
  - destruct (slashes_head 1 (join "/"
        (rev (fold_left (PosixPath.normpath_step 2) (split "/" path) []))))
      as [r' ->].
    cbn [is_empty]. by rewrite startswith_head.
  - destruct (slashes_head 0 (join "/"
        (rev (fold_left (PosixPath.normpath_step 1) (split "/" path) []))))
      as [r' ->].
    cbn [is_empty]. by rewrite startswith_head.
Qed.

Lemma abspath_absolute cwd path :
  startswith "/" cwd = true -> startswith "/" (PosixPath.abspath cwd path) = true.
Proof.
  intros H. unfold PosixPath.abspath, PosixPath.isabs.
  destruct (startswith "/" path) eqn:E; apply normpath_absolute; [done|].
  unfold OsPath.join. rewrite E.
  destruct (_ || _); by apply startswith_head_append.
Qed.

(** X16.  A scraper made in an absolute working directory has an absolute
    [base_dir], starts with an empty visited set, and gives every URL
    an absolute file name. *)
Theorem init_gives_absolute_file_names (cwd : string) (disk : gmap string string)
    (base : string) (max_depth delay : Z) :
  startswith "/" cwd = true ->
  let '(scraper, s0) := __init__ cwd disk base max_depth delay in
  startswith "/" (base_dir scraper) = true
  /\ visited_urls s0 = ∅
  /\ forall w url f, get_filename w scraper url = Ok f -> startswith "/" f = true.
Proof.
  intros H. simpl. pose proof (abspath_absolute cwd base H) as Hb.
  split; [exact Hb|]. split; [reflexivity|].
  intros w url f Hf. destruct (get_filename_parsed _ _ _ _ Hf) as [p Hp].
  rewrite (get_filename_shape _ _ _ _ Hp) in Hf. injection Hf as <-.
  unfold OsPath.join. simpl base_dir.
  destruct (startswith "/" (_ +:+ _)) eqn:E; [exact E|].
  destruct (_ || _); by apply startswith_head_append.
Qed.


End Program.

(** ** What ends the work on a page, and what does not *)

Section PageWork.
Variable w : World.
Variable self : WebScraper.

(** X18.  A download that gives nothing (the URL is disallowed, or the
    request failed) ends the work on the page: the call returns in
    the state the download left, with no file written, the parser not
    called and no link followed; the URL stays visited. *)
Theorem failed_download_ends_the_page (url : string) (depth : option Z)
    (s s2 : State) :
  0 <= effective_depth self depth ->
  url ∉ visited_urls s ->
  download_page w self url (mark_visited url (effective_depth self depth) s)
    = (Ok None, s2) ->
  scrape_website w self url depth s = Some (Ok tt, s2)
  /\ files s2 = files s
  /\ visited_urls s2 = {[url]} ∪ visited_urls s
  /\ scraped (events s2) = url :: scraped (events s).
Proof.
  intros Hd Hnot Hdl.
  rewrite scrape_website_visits by done.
  unfold visit_page. rewrite Hdl.
  destruct (download_page_step _ _ _ _ _ _ Hdl) as [[V E S G] F].
  split; [done|]. split; [by rewrite F|]. split; [by rewrite V|]. by rewrite S.
Qed.

(** X19.  A failed save does not stop the page: after a download with
    content, [save_page] returns normally whatever the disk does, and
    the call goes on to parse the content and follow its links. *)
Theorem links_are_followed_whatever_the_save_does (url : string) (depth : option Z)
    (s s1 : State) (content : string) :
  0 <= effective_depth self depth ->
  url ∉ visited_urls s ->
  download_page w self url (mark_visited url (effective_depth self depth) s)
    = (Ok (Some content), s1) ->
  PyStr.is_empty content = false ->
  exists s2,
    save_page w self url content s1 = (Ok tt, s2)
    /\ scrape_website w self url depth s
       = parse_and_follow w
           (scrape_website_fuel w self (Z.to_nat (effective_depth self depth)))
           url (effective_depth self depth) content s2.
Proof.
  intros Hd Hnot Hdl Hne.
  destruct (save_page_returns w self url content s1) as [s2 Es].
  exists s2. split; [exact Es|].
  rewrite scrape_website_visits by done.
  unfold visit_page. by rewrite Hdl, Hne, Es.
Qed.

End PageWork.

(** On a disk that refuses every write, the links of the page are
    still followed. *)
Example read_only_disk_is_crawled :
  Sample.crawled MoreSamples.read_only_disk Sample.scraper "http://same.example/" (Some 1)
  = Some ["http://same.example/"; "http://same.example/a"; "https://same.example/b"]
  /\ (scrape_website MoreSamples.read_only_disk Sample.scraper "http://same.example/"
        (Some 1) initial_state ≫= fun rs => Some (size (files rs.2))) = Some 0%nat.
Proof. vm_compute. split; reflexivity. Qed.

(** A path with [..] is kept as it is: the name is inside the site's
    directory only as a text. *)
Example dot_dot_is_kept :
  get_filename Sample.not_found Sample.scraper "http://ex.com/../../x"
  = Ok "/srv/scraped_pages/ex.com/../../x.html".
Proof. vm_compute. reflexivity. Qed.

(** ** Instances *)

Lemma get_filename_names_a_file_witness :
  PyStr.is_empty "/srv/scraped_pages/ex.com/dir/index.html" = false
  /\ PyStr.endswith_ch "/" "/srv/scraped_pages/ex.com/dir/index.html" = false.
Proof.
  apply (get_filename_names_a_file Sample.not_found Sample.scraper "https://ex.com/dir/").
  vm_compute. reflexivity.
Defined.

Lemma get_filename_ignores_query_witness :
  get_filename Sample.not_found Sample.scraper ("https://ex.com/page" +:+ "?" +:+ "x=1")
  = get_filename Sample.not_found Sample.scraper "https://ex.com/page".
Proof.
  apply (get_filename_ignores_query Sample.not_found Sample.scraper
           "https://ex.com/page" "x=1"); reflexivity.
Defined.

Lemma get_filename_ignores_fragment_witness :
  get_filename Sample.not_found Sample.scraper ("https://ex.com/page?x=1" +:+ "#" +:+ "top")
  = get_filename Sample.not_found Sample.scraper "https://ex.com/page?x=1".
Proof.
  apply (get_filename_ignores_fragment Sample.not_found Sample.scraper
           "https://ex.com/page?x=1" "top"); reflexivity.
Defined.

Lemma get_filename_inside_site_directory_witness :
  exists rest,
    get_filename Sample.not_found Sample.scraper "https://ex.com:8080/a"
    = Ok (OsPath.join (base_dir Sample.scraper)
            (PyStr.replace_ch ":" "_"
               (Urllib.netloc (MoreSamples.parsed "https" "ex.com:8080" "/a")))
          +:+ String "/" rest).
Proof.
  apply (get_filename_inside_site_directory Sample.not_found Sample.scraper
           "https://ex.com:8080/a" (MoreSamples.parsed "https" "ex.com:8080" "/a")).
  - vm_compute. reflexivity.
  - discriminate.
Defined.

Lemma get_filename_without_authority_witness :
  let p := MoreSamples.parsed EmptyString EmptyString "/etc/passwd" in
  get_filename Sample.not_found Sample.scraper "/etc/passwd"
    = Ok (file_part (Urllib.path p))
  /\ PyStr.startswith "/" (file_part (Urllib.path p)) = true.
Proof.
  apply (get_filename_without_authority Sample.not_found Sample.scraper "/etc/passwd"
           (MoreSamples.parsed EmptyString EmptyString "/etc/passwd")).
  - vm_compute. reflexivity.
  - reflexivity.
  - reflexivity.
Defined.

Lemma run_writes_inside_site_directory_witness :
  let w := Sample.site Sample.echo Sample.scenario_links in
  let page := MoreSamples.parsed "http" "a.test" "/" in
  exists r s' new,
    scrape_website w Sample.scraper "http://a.test/" (Some 1) initial_state = Some (r, s')
    /\ events s' = new ++ events initial_state
    /\ forall f c, WriteFile f c ∈ new ->
         exists rest,
           f = OsPath.join (base_dir Sample.scraper)
                 (PyStr.replace_ch ":" "_" (Urllib.netloc page))
               +:+ String "/" rest.
Proof.
  apply (run_writes_inside_site_directory (Sample.site Sample.echo Sample.scenario_links)
           Sample.scraper "http://a.test/" (Some 1) initial_state
           (MoreSamples.parsed "http" "a.test" "/")).
  - vm_compute. reflexivity.
  - discriminate.
Defined.

Lemma run_is_polite_witness :
  exists r s',
    scrape_website (Sample.site Sample.echo Sample.cyclic_links) Sample.scraper
      "http://a.test/" None initial_state = Some (r, s')
    /\ polite (Sample.site Sample.echo Sample.cyclic_links) Sample.scraper (events s').
Proof.
  apply (run_is_polite (Sample.site Sample.echo Sample.cyclic_links) Sample.scraper
           "http://a.test/" None initial_state).
  simpl. exact I.
Defined.

Lemma visited_are_the_started_downloads_witness :
  exists r s',
    scrape_website (Sample.site Sample.echo Sample.cyclic_links) Sample.scraper
      "http://a.test/" None initial_state = Some (r, s')
    /\ forall u, u ∈ visited_urls s' <-> u ∈ scraped (events s').
Proof.
  apply (visited_are_the_started_downloads
           (Sample.site Sample.echo Sample.cyclic_links) Sample.scraper
           "http://a.test/" None initial_state).
  intros u. simpl. split; intros H; [by apply not_elem_of_empty in H|by inversion H].
Defined.

Lemma depth_0_downloads_one_page_witness :
  let w := Sample.site Sample.echo Sample.cyclic_links in
  exists r s',
    scrape_website w Sample.scraper "http://a.test/" (Some 0) initial_state = Some (r, s')
    /\ visited_urls s' = {["http://a.test/"]} ∪ visited_urls initial_state
    /\ scraped (events s') = "http://a.test/" :: scraped (events initial_state)
    /\ (gets (events s') = gets (events initial_state)
        \/ gets (events s') = "http://a.test/" :: gets (events initial_state)).
Proof.
  apply (depth_0_downloads_one_page (Sample.site Sample.echo Sample.cyclic_links)
           Sample.scraper "http://a.test/" initial_state).
  simpl. apply not_elem_of_empty.
Defined.

Lemma save_page_round_trip_witness :
  let f := "/srv/scraped_pages/ex.com/index.html" in
  exists s',
    save_page Sample.not_found Sample.scraper "https://ex.com/" "hello" initial_state
      = (Ok tt, s')
    /\ files s' !! f = Some "hello"
    /\ forall g, g <> f -> files s' !! g = files initial_state !! g.
Proof.
  apply (save_page_round_trip Sample.not_found Sample.scraper "https://ex.com/" "hello"
           initial_state "/srv/scraped_pages/ex.com/index.html"); reflexivity.
Defined.

Lemma init_gives_absolute_file_names_witness :
  let '(scraper, s0) := __init__ "/home/u" ∅ "./scraped_pages" 3 1 in
  PyStr.startswith "/" (base_dir scraper) = true
  /\ visited_urls s0 = ∅
  /\ forall w url f, get_filename w scraper url = Ok f -> PyStr.startswith "/" f = true.
Proof.
  apply (init_gives_absolute_file_names "/home/u" ∅ "./scraped_pages" 3 1).
  reflexivity.
Defined.

Lemma failed_download_ends_the_page_witness :
  let s2 := snd (download_page Sample.unreachable Sample.scraper "http://a.test/"
                   (mark_visited "http://a.test/" 3 initial_state)) in
  scrape_website Sample.unreachable Sample.scraper "http://a.test/" None initial_state
    = Some (Ok tt, s2)
  /\ files s2 = files initial_state
  /\ visited_urls s2 = {["http://a.test/"]} ∪ visited_urls initial_state
  /\ scraped (events s2) = "http://a.test/" :: scraped (events initial_state).
Proof.
  apply (failed_download_ends_the_page Sample.unreachable Sample.scraper
           "http://a.test/" None initial_state).
  - simpl. lia.
  - simpl. apply not_elem_of_empty.
  - reflexivity.
Defined.

Lemma links_are_followed_whatever_the_save_does_witness :
  let w := MoreSamples.read_only_disk in
  let url := "http://same.example/" in
  let s1 := snd (download_page w Sample.scraper url (mark_visited url 1 initial_state)) in
  exists s2,
    save_page w Sample.scraper url url s1 = (Ok tt, s2)
    /\ scrape_website w Sample.scraper url (Some 1) initial_state
       = parse_and_follow w (scrape_website_fuel w Sample.scraper (Z.to_nat 1))
           url 1 url s2.
Proof.
  apply (links_are_followed_whatever_the_save_does MoreSamples.read_only_disk
           Sample.scraper "http://same.example/" (Some 1) initial_state).
  - simpl. lia.
  - simpl. apply not_elem_of_empty.
  - reflexivity.
  - reflexivity.
Defined.
